(** * Fatture-fornitori: ledger, classification, filters and backup protocol

    A shallow embedding of [src/services/storage.ts], [src/unnamed/part_003]
    (the storage service with authentication), of the tabs and data
    handlers of [App] in [src/unnamed/part_001], and of the invoice editor
    and the password form of [src/unnamed/part_002].

    Modelling conventions.
    - JavaScript numbers are modelled as exact integers (amounts in the
      smallest currency unit) plus an explicit [NaN]; floating-point rounding
      is not modelled.
    - Strings are Stdlib strings of ASCII characters.
    - The remote database is modelled as the set of rows the logged-in user
      sees through row-level security: a supplier table and an invoice table.
    - Every gateway call may fail; an environment says which calls fail. *)

From Stdlib Require Import List String Ascii ZArith Bool Lia Permutation Sorted.
Import ListNotations.
Open Scope string_scope.
Open Scope list_scope.
Open Scope Z_scope.
Set Warnings "-register-all".

(** ** JavaScript values *)

(** A JavaScript number as produced by arithmetic: a (finite) value or NaN. *)
Inductive jsnum : Type :=
| JNum (z : Z)
| JNaN.

(** A primitive value stored in a row field ([credit], [debit]). A missing
    field reads as [JUndefined]. *)
Inductive jsscalar : Type :=
| JUndefined
| JNull
| JBool (b : bool)
| JNumber (z : Z)
| JString (s : string).

Definition js_add (a b : jsnum) : jsnum :=
  match a, b with
  | JNum x, JNum y => JNum (x + y)
  | _, _ => JNaN
  end.

Definition js_sub (a b : jsnum) : jsnum :=
  match a, b with
  | JNum x, JNum y => JNum (x - y)
  | _, _ => JNaN
  end.

(** [x !== 0] *)
Definition js_neq0 (a : jsnum) : bool :=
  match a with
  | JNum z => negb (z =? 0)
  | JNaN => true
  end.

(** [x > 0] *)
Definition js_gt0 (a : jsnum) : bool :=
  match a with
  | JNum z => 0 <? z
  | JNaN => false
  end.

(** [x < 0], the spec's overpayment condition (not an expression of the
    sources). *)
Definition js_lt0 (a : jsnum) : bool :=
  match a with
  | JNum z => z <? 0
  | JNaN => false
  end.

(** *** [Number(v)] *)

(** JavaScript's StrWhiteSpaceChar restricted to ASCII. *)
Definition is_ws (c : ascii) : bool :=
  match nat_of_ascii c with
  | 9 | 10 | 11 | 12 | 13 | 32 => true
  | _ => false
  end%nat.

Fixpoint drop_ws (l : list ascii) : list ascii :=
  match l with
  | c :: t => if is_ws c then drop_ws t else l
  | [] => []
  end.

Definition trim (s : string) : list ascii :=
  rev (drop_ws (rev (drop_ws (list_ascii_of_string s)))).

Definition digit_value (c : ascii) : option Z :=
  let n := nat_of_ascii c in
  if (48 <=? n)%nat && (n <=? 57)%nat then Some (Z.of_nat n - 48) else None.

Fixpoint parse_digits (acc : Z) (l : list ascii) : option Z :=
  match l with
  | [] => Some acc
  | c :: t =>
      match digit_value c with
      | Some d => parse_digits (10 * acc + d) t
      | None => None
      end
  end.

Definition parse_unsigned (l : list ascii) : option Z :=
  match l with
  | [] => None
  | _ => parse_digits 0 l
  end.

(** [Number(s)] for a string: blank strings give 0, a decimal integer
    literal (optionally signed, surrounded by white space) gives its value,
    anything else gives NaN. Fractional, exponent and hexadecimal literals
    lie outside the integer model of numbers. *)
Definition string_to_number (s : string) : jsnum :=
  match trim s with
  | [] => JNum 0
  | c :: t =>
      if Ascii.eqb c "-" then
        match parse_unsigned t with Some z => JNum (- z) | None => JNaN end
      else if Ascii.eqb c "+" then
        match parse_unsigned t with Some z => JNum z | None => JNaN end
      else
        match parse_unsigned (c :: t) with Some z => JNum z | None => JNaN end
  end.

(** [Number(v)] *)
Definition Number (v : jsscalar) : jsnum :=
  match v with
  | JUndefined => JNaN
  | JNull => JNum 0
  | JBool b => JNum (if b then 1 else 0)
  | JNumber z => JNum z
  | JString s => string_to_number s
  end.

(** [!v] *)
Definition js_falsy (v : jsscalar) : bool :=
  match v with
  | JUndefined | JNull => true
  | JBool b => negb b
  | JNumber z => z =? 0
  | JString s => String.eqb s EmptyString
  end.

(** ** Entity model ([src/types.ts]) *)

Module InvoiceRow.
Record t : Type := mk {
    id : string;
    date : string;
    description : string;
    protocol : string;
    credit : jsscalar;
    debit : jsscalar
  }.
End InvoiceRow.

(** The [rows] field of an invoice as read at run time: an array of rows or
    some other (malformed) value. *)
Inductive rows_value : Type :=
| RowsArray (l : list InvoiceRow.t)
| RowsNotArray (v : jsscalar).

Module Invoice.
Record t : Type := mk {
    id : string;
    supplier_id : string;
    creation_date : string;
    rows : rows_value
  }.
End Invoice.

Module Supplier.
Record t : Type := mk {
    id : string;
    name : string;
    iban : string;
    email : string;
    phone : string;
    notes : string;
    is_merchandise : bool
  }.
End Supplier.

(** ** Balance engine ([calculateInvoiceBalance], [getInvoiceInitialAmount]) *)

Definition calculateInvoiceBalance (invoice : Invoice.t) : jsnum :=
  match Invoice.rows invoice with
  | RowsNotArray _ => JNum 0
  | RowsArray rows =>
      fold_left (fun acc row =>
                   js_add acc (js_sub (Number (InvoiceRow.credit row))
                                      (Number (InvoiceRow.debit row))))
                rows (JNum 0)
  end.

(** [None] stands for the [TypeError] raised when [invoice.rows[0]] is
    [undefined] (a truthy non-array, non-string [rows]). A non-empty string
    has a one-character string at index 0, whose [credit] is [undefined]. *)
Definition getInvoiceInitialAmount (invoice : Invoice.t) : option jsnum :=
  match Invoice.rows invoice with
  | RowsArray [] => Some (JNum 0)
  | RowsArray (r :: _) => Some (Number (InvoiceRow.credit r))
  | RowsNotArray v =>
      if js_falsy v then Some (JNum 0)
      else match v with
           | JString _ => Some (Number JUndefined)
           | _ => None
           end
  end.

(** The mathematical sum of a list of JavaScript numbers. *)
Definition js_sum (l : list jsnum) : jsnum := fold_right js_add (JNum 0) l.

Definition row_amount (row : InvoiceRow.t) : jsnum :=
  js_sub (Number (InvoiceRow.credit row)) (Number (InvoiceRow.debit row)).

(** ** Enriched view model ([InvoiceWithSupplier]) *)

Module InvoiceWithSupplier.
Record t : Type := mk {
    id : string;
    supplier_id : string;
    creation_date : string;
    rows : rows_value;
    supplier : Supplier.t;
    balance : jsnum;
    initialAmount : jsnum
  }.
End InvoiceWithSupplier.

(** ** JavaScript builtins used by the filters *)

(** [new Date(x)] for [x] the first row's date ([Some s]) or [undefined]
    ([None]): its [getTime()], [getMonth()] and [getFullYear()]. The last two
    depend on the local time zone, so the builtin is a parameter. *)
Class JsDate : Type := {
  date_getTime : option string -> jsnum;
  date_getMonth : option string -> jsnum;
  date_getFullYear : option string -> jsnum
}.

Definition lower_ascii (c : ascii) : ascii :=
  let n := nat_of_ascii c in
  if (65 <=? n)%nat && (n <=? 90)%nat then ascii_of_nat (n + 32) else c.

(** [s.toLowerCase()] on ASCII strings. *)
Fixpoint toLowerCase (s : string) : string :=
  match s with
  | EmptyString => EmptyString
  | String c t => String (lower_ascii c) (toLowerCase t)
  end.

(** [hay.includes(needle)] *)
Fixpoint includes (hay needle : string) : bool :=
  String.prefix needle hay ||
  match hay with
  | EmptyString => false
  | String _ t => includes t needle
  end.

Fixpoint pos_to_digits (fuel : nat) (n : Z) (acc : string) : string :=
  match fuel with
  | O => acc
  | S f =>
      let acc' := String (ascii_of_nat (48 + Z.to_nat (n mod 10))) acc in
      if n / 10 =? 0 then acc' else pos_to_digits f (n / 10) acc'
  end.

(** [x.toString()] for a number. *)
Definition num_to_string (x : jsnum) : string :=
  match x with
  | JNaN => "NaN"
  | JNum z =>
      let digits := pos_to_digits (S (Z.to_nat (Z.log2_up (Z.abs z + 1))))
                                  (Z.abs z) EmptyString in
      if z <? 0 then String "-" digits else digits
  end.

(** [!s] for a string state variable. *)
Definition str_empty (s : string) : bool := String.eqb s EmptyString.

(** [i.rows[0]?.date]: [None] is the [TypeError] raised when [rows] is
    [null] or [undefined]; [Some None] is [undefined]. *)
Definition first_row_date (rows : rows_value) : option (option string) :=
  match rows with
  | RowsArray [] => Some None
  | RowsArray (r :: _) => Some (Some (InvoiceRow.date r))
  | RowsNotArray JUndefined | RowsNotArray JNull => None
  | RowsNotArray _ => Some None
  end.

(** [a < b] where [a] is a string or [undefined] and [b] a string. *)
Definition opt_lt (a : option string) (b : string) : bool :=
  match a with Some x => String.ltb x b | None => false end.

(** [a > b] *)
Definition opt_gt (a : option string) (b : string) : bool :=
  match a with Some x => String.ltb b x | None => false end.

(** The filter state shared by the dashboard and history tabs. *)
Record Filters : Type := mkFilters {
  search : string;
  month : string;
  year : string;
  dateFrom : string;
  dateTo : string;
  onlyMerch : bool
}.

(** [filter] with a predicate that may throw ([None]). *)
Fixpoint filter_opt {A} (p : A -> option bool) (l : list A) : option (list A) :=
  match l with
  | [] => Some []
  | x :: t =>
      match p x with
      | None => None
      | Some b =>
          match filter_opt p t with
          | None => None
          | Some r => Some (if b then x :: r else r)
          end
      end
  end.

Section Filtering.
Context `{D : JsDate}.

Definition search_rejects (f : Filters) (i : InvoiceWithSupplier.t) : bool :=
    negb (str_empty (search f)) &&
    negb (includes (toLowerCase (Supplier.name (InvoiceWithSupplier.supplier i)))
                   (toLowerCase (search f))).

  (** The date part shared by both tabs, from
      [const d = new Date(i.rows[0]?.date)] to the [dateTo] test. *)
Definition date_filters (f : Filters) (i : InvoiceWithSupplier.t) : option bool :=
    match first_row_date (InvoiceWithSupplier.rows i) with
    | None => None
    | Some fd =>
        if negb (str_empty (month f)) &&
           negb (String.eqb (num_to_string (js_add (date_getMonth fd) (JNum 1)))
                            (month f)) then Some false
        else if negb (str_empty (year f)) &&
                negb (String.eqb (num_to_string (date_getFullYear fd)) (year f))
        then Some false
        else if negb (str_empty (dateFrom f)) && opt_lt fd (dateFrom f) then Some false
        else if negb (str_empty (dateTo f)) && opt_gt fd (dateTo f) then Some false
        else Some true
    end.

  (** [applyFilters] of [ActiveInvoicesTab]. *)
Definition applyFilters_pred (f : Filters) (i : InvoiceWithSupplier.t) : option bool :=
    if search_rejects f i then Some false else date_filters f i.

Definition applyFilters (f : Filters) (invList : list InvoiceWithSupplier.t)
    : option (list InvoiceWithSupplier.t) :=
    filter_opt (applyFilters_pred f) invList.

  (** The predicate of [historyInvoices] in [HistoryTab]. *)
Definition history_pred (f : Filters) (i : InvoiceWithSupplier.t) : option bool :=
    if js_neq0 (InvoiceWithSupplier.balance i) then Some false
    else if search_rejects f i then Some false
    else if onlyMerch f && negb (Supplier.is_merchandise (InvoiceWithSupplier.supplier i))
    then Some false
    else date_filters f i.

  (** [new Date(i.rows[0]?.date).getTime()] for an invoice kept by a filter. *)
Definition first_time (i : InvoiceWithSupplier.t) : jsnum :=
    match first_row_date (InvoiceWithSupplier.rows i) with
    | Some fd => date_getTime fd
    | None => JNaN
    end.

  (** History comparator [(a, b) => time(b) - time(a)]. *)
Definition history_cmp (a b : InvoiceWithSupplier.t) : jsnum :=
    js_sub (first_time b) (first_time a).
End Filtering.

(** [Array.prototype.sort] with a comparator, as a stable insertion sort:
    [b] is placed before [a] exactly when [cmp a b > 0]. *)
Fixpoint insert_by {A} (cmp : A -> A -> jsnum) (x : A) (l : list A) : list A :=
  match l with
  | [] => [x]
  | y :: t => if js_gt0 (cmp x y) then y :: insert_by cmp x t else x :: y :: t
  end.

Fixpoint sort_by {A} (cmp : A -> A -> jsnum) (l : list A) : list A :=
  match l with
  | [] => []
  | x :: t => insert_by cmp x (sort_by cmp t)
  end.

Section Tabs.
Context `{D : JsDate}.

  (** [historyInvoices] of [HistoryTab]: filter, then sort by descending date. *)
Definition historyInvoices (f : Filters) (enrichedInvoices : list InvoiceWithSupplier.t)
    : option (list InvoiceWithSupplier.t) :=
    match filter_opt (history_pred f) enrichedInvoices with
    | None => None
    | Some l => Some (sort_by history_cmp l)
    end.

  (** [totalSettled] of [HistoryTab]. *)
Definition totalSettled (historyInvoices : list InvoiceWithSupplier.t) : jsnum :=
    fold_left (fun a b => js_add a (InvoiceWithSupplier.initialAmount b))
              historyInvoices (JNum 0).
End Tabs.

(** [activeInvoices], [merchandiseInvoices] and [toPayInvoices] of
    [ActiveInvoicesTab], before the filters are applied. *)
Definition activeInvoices (enrichedInvoices : list InvoiceWithSupplier.t) :=
  filter (fun i => js_neq0 (InvoiceWithSupplier.balance i)) enrichedInvoices.

Definition merchandiseInvoices (enrichedInvoices : list InvoiceWithSupplier.t) :=
  filter (fun i => Supplier.is_merchandise (InvoiceWithSupplier.supplier i))
         (activeInvoices enrichedInvoices).

Definition toPayInvoices (enrichedInvoices : list InvoiceWithSupplier.t) :=
  filter (fun i => negb (Supplier.is_merchandise (InvoiceWithSupplier.supplier i)) &&
                   js_gt0 (InvoiceWithSupplier.balance i))
         (activeInvoices enrichedInvoices).

(** ** Persistence gateway ([src/unnamed/part_003]) *)

(** The tables visible to the logged-in user. *)
Record db : Type := mkDb {
  db_suppliers : list Supplier.t;
  db_invoices : list Invoice.t
}.

(** The requests the storage service sends to the database. *)
Inductive call : Type :=
| CSelectSuppliers
| CSelectInvoices
| CDeleteSupplier
| CDeleteAllInvoices
| CDeleteAllSuppliers
| CInsertSuppliers
| CInsertInvoices.

(** What the outside world answers: the authenticated user (if any), which
    requests fail (network or server error), and the clock. *)
Record env : Type := mkEnv {
  auth_user : option string;
  fails : call -> bool;
  now : string
}.

Inductive outcome (A : Type) : Type :=
| Ok (a : A)
| Throw (e : string).
Arguments Ok {A} a.
Arguments Throw {A} e.

(** An [async] function: reads the environment, updates the database, and
    returns a value or rejects with an exception. *)
Definition M (A : Type) : Type := env -> db -> outcome A * db.

Definition ret {A} (a : A) : M A := fun _ s => (Ok a, s).

Definition bind {A B} (m : M A) (k : A -> M B) : M B :=
  fun e s =>
    match m e s with
    | (Ok a, s') => k a e s'
    | (Throw x, s') => (Throw x, s')
    end.

Definition throw {A} (x : string) : M A := fun _ s => (Throw x, s).

Definition try_catch {A} (m : M A) (h : string -> M A) : M A :=
  fun e s =>
    match m e s with
    | (Throw x, s') => h x e s'
    | r => r
    end.

Definition ask : M env := fun e s => (Ok e, s).

Definition modify (f : db -> db) : M unit := fun _ s => (Ok tt, f s).

Definition gets {A} (f : db -> A) : M A := fun _ s => (Ok (f s), s).

Notation "x <- m ;; k" := (bind m (fun x => k))
  (at level 61, m at next level, right associativity).
Notation "m ;;; k" := (bind m (fun _ => k))
  (at level 61, right associativity).

(** The [{ data, error }] of a PostgREST response. *)
Inductive response (A : Type) : Type :=
| RData (a : A)
| RError.
Arguments RData {A} a.
Arguments RError {A}.

(** *** JSON documents *)

Inductive json : Type :=
| JsonNull
| JsonBool (b : bool)
| JsonNum (z : Z)
| JsonStr (s : string)
| JsonArr (l : list json)
| JsonObj (fields : list (string * json)).

(** [obj[key]] on a parsed object: the last binding of [key] wins, as in
    [JSON.parse]. *)
Fixpoint assoc_last (fields : list (string * json)) (key : string) : option json :=
  match fields with
  | [] => None
  | (k, v) :: t =>
      match assoc_last t key with
      | Some r => Some r
      | None => if String.eqb k key then Some v else None
      end
  end.

(** [data.key]: [None] is [undefined]; property access on [null] throws. *)
Definition get_prop (data : json) (key : string) : M (option json) :=
  match data with
  | JsonNull => throw "TypeError"
  | JsonObj fs => ret (assoc_last fs key)
  | _ => ret None
  end.

(** [Array.isArray(v)] *)
Definition isArray (v : option json) : bool :=
  match v with Some (JsonArr _) => true | _ => false end.

Definition scalar_to_json (v : jsscalar) : option json :=
  match v with
  | JUndefined => None
  | JNull => Some JsonNull
  | JBool b => Some (JsonBool b)
  | JNumber z => Some (JsonNum z)
  | JString s => Some (JsonStr s)
  end.

(** A field whose value is [undefined] is left out by [JSON.stringify]. *)
Definition opt_field (k : string) (v : option json) : list (string * json) :=
  match v with Some j => [(k, j)] | None => [] end.

Definition row_to_json (r : InvoiceRow.t) : json :=
  JsonObj ([("id", JsonStr (InvoiceRow.id r));
            ("date", JsonStr (InvoiceRow.date r));
            ("description", JsonStr (InvoiceRow.description r));
            ("protocol", JsonStr (InvoiceRow.protocol r))]
           ++ opt_field "credit" (scalar_to_json (InvoiceRow.credit r))
           ++ opt_field "debit" (scalar_to_json (InvoiceRow.debit r))).

Definition rows_to_json (rv : rows_value) : option json :=
  match rv with
  | RowsArray l => Some (JsonArr (map row_to_json l))
  | RowsNotArray v => scalar_to_json v
  end.

Definition invoice_to_json (i : Invoice.t) : json :=
  JsonObj ([("id", JsonStr (Invoice.id i));
            ("supplier_id", JsonStr (Invoice.supplier_id i));
            ("creation_date", JsonStr (Invoice.creation_date i))]
           ++ opt_field "rows" (rows_to_json (Invoice.rows i))).

Definition supplier_to_json (s : Supplier.t) : json :=
  JsonObj [("id", JsonStr (Supplier.id s));
           ("name", JsonStr (Supplier.name s));
           ("iban", JsonStr (Supplier.iban s));
           ("email", JsonStr (Supplier.email s));
           ("phone", JsonStr (Supplier.phone s));
           ("notes", JsonStr (Supplier.notes s));
           ("is_merchandise", JsonBool (Supplier.is_merchandise s))].

(** How the database reads an inserted JSON record back into a row of its
    table. Columns are modelled as required; a record it cannot store makes
    the insert fail. Unknown keys (such as [user_id], which row-level
    security handles) are ignored. *)
Definition get_str (fs : list (string * json)) (k : string) : option string :=
  match assoc_last fs k with Some (JsonStr s) => Some s | _ => None end.

Definition json_to_scalar (v : option json) : option jsscalar :=
  match v with
  | None => Some JUndefined
  | Some JsonNull => Some JNull
  | Some (JsonBool b) => Some (JBool b)
  | Some (JsonNum z) => Some (JNumber z)
  | Some (JsonStr s) => Some (JString s)
  | Some _ => None
  end.

Definition json_to_row (j : json) : option InvoiceRow.t :=
  match j with
  | JsonObj fs =>
      match get_str fs "id", get_str fs "date", get_str fs "description",
            get_str fs "protocol", json_to_scalar (assoc_last fs "credit"),
            json_to_scalar (assoc_last fs "debit") with
      | Some a, Some b, Some c, Some d, Some e, Some f =>
          Some (InvoiceRow.mk a b c d e f)
      | _, _, _, _, _, _ => None
      end
  | _ => None
  end.

Fixpoint map_opt {A B} (f : A -> option B) (l : list A) : option (list B) :=
  match l with
  | [] => Some []
  | x :: t =>
      match f x, map_opt f t with
      | Some y, Some r => Some (y :: r)
      | _, _ => None
      end
  end.

Definition json_to_rows (v : option json) : option rows_value :=
  match v with
  | Some (JsonArr l) =>
      match map_opt json_to_row l with Some rs => Some (RowsArray rs) | None => None end
  | _ => match json_to_scalar v with Some x => Some (RowsNotArray x) | None => None end
  end.

Definition json_to_invoice (j : json) : option Invoice.t :=
  match j with
  | JsonObj fs =>
      match get_str fs "id", get_str fs "supplier_id", get_str fs "creation_date",
            json_to_rows (assoc_last fs "rows") with
      | Some a, Some b, Some c, Some d => Some (Invoice.mk a b c d)
      | _, _, _, _ => None
      end
  | _ => None
  end.

Definition json_to_supplier (j : json) : option Supplier.t :=
  match j with
  | JsonObj fs =>
      match get_str fs "id", get_str fs "name", get_str fs "iban", get_str fs "email",
            get_str fs "phone", get_str fs "notes", assoc_last fs "is_merchandise" with
      | Some a, Some b, Some c, Some d, Some e, Some f, Some (JsonBool g) =>
          Some (Supplier.mk a b c d e f g)
      | _, _, _, _, _, _, _ => None
      end
  | _ => None
  end.

(** *** The database *)

(** The id that [deleteAllSuppliers] excludes with [.neq('id', ...)]. *)
Definition nil_uuid : string := "00000000-0000-0000-0000-000000000000".

Fixpoint nodupb (l : list string) : bool :=
  match l with
  | [] => true
  | x :: t => negb (existsb (String.eqb x) t) && nodupb t
  end.

Fixpoint insert_by_name (x : Supplier.t) (l : list Supplier.t) : list Supplier.t :=
  match l with
  | [] => [x]
  | y :: t =>
      if String.leb (Supplier.name x) (Supplier.name y) then x :: y :: t
      else y :: insert_by_name x t
  end.

(** [.order('name', { ascending: true })], with the server collation
    modelled as byte order. *)
Fixpoint sort_by_name (l : list Supplier.t) : list Supplier.t :=
  match l with
  | [] => []
  | x :: t => insert_by_name x (sort_by_name t)
  end.

Definition supplier_has_id (id : string) (s : Supplier.t) : bool :=
  String.eqb (Supplier.id s) id.

(** Modelled from the spec: the database schema (not part of the sources)
    declares [invoices.supplier_id] as a foreign key with [ON DELETE
    CASCADE], as the comment in [deleteSupplier] states: deleting the
    suppliers selected by [p] also deletes every invoice that references one
    of them. *)
Definition delete_suppliers_cascade (p : Supplier.t -> bool) (s : db) : db :=
  let gone := map Supplier.id (filter p (db_suppliers s)) in
  mkDb (filter (fun x => negb (p x)) (db_suppliers s))
       (filter (fun i => negb (existsb (String.eqb (Invoice.supplier_id i)) gone))
               (db_invoices s)).

(** A request that may fail: on failure the database is unchanged and the
    response carries an error. *)
Definition request {A} (c : call) (m : M A) : M (response A) :=
  e <- ask;;
  if fails e c then ret RError else (a <- m;; ret (RData a)).

(** [supabase.from('suppliers').select('*').order('name', ...)] *)
Definition sb_select_suppliers : M (response (list Supplier.t)) :=
  request CSelectSuppliers (gets (fun s => sort_by_name (db_suppliers s))).

(** [supabase.from('invoices').select('*')] *)
Definition sb_select_invoices : M (response (list Invoice.t)) :=
  request CSelectInvoices (gets db_invoices).

(** [supabase.from('suppliers').delete().eq('id', id)] *)
Definition sb_delete_supplier (id : string) : M (response unit) :=
  request CDeleteSupplier (modify (delete_suppliers_cascade (supplier_has_id id))).

(** [supabase.from('invoices').delete().neq('id', nil_uuid)] *)
Definition sb_delete_invoices_neq (x : string) : M (response unit) :=
  request CDeleteAllInvoices
    (modify (fun s => mkDb (db_suppliers s)
                           (filter (fun i => negb (String.eqb (Invoice.id i) x))
                                   (db_invoices s)))).

(** [supabase.from('suppliers').delete().neq('id', nil_uuid)] *)
Definition sb_delete_suppliers_neq (x : string) : M (response unit) :=
  request CDeleteAllSuppliers
    (modify (delete_suppliers_cascade (fun s => negb (supplier_has_id x s)))).

(** [supabase.from('suppliers').insert(records)]: one statement, rejected as
    a whole when a record cannot be stored or a primary key repeats. *)
Definition sb_insert_suppliers (records : list json) : M (response unit) :=
  e <- ask;;
  s <- gets id;;
  if fails e CInsertSuppliers then ret RError else
  match map_opt json_to_supplier records with
  | None => ret RError
  | Some ss =>
      if nodupb (map Supplier.id (db_suppliers s ++ ss))
      then modify (fun s => mkDb (db_suppliers s ++ ss) (db_invoices s));;; ret (RData tt)
      else ret RError
  end.

(** [supabase.from('invoices').insert(records)]: also rejected when a
    [supplier_id] names no stored supplier. *)
Definition sb_insert_invoices (records : list json) : M (response unit) :=
  e <- ask;;
  s <- gets id;;
  if fails e CInsertInvoices then ret RError else
  match map_opt json_to_invoice records with
  | None => ret RError
  | Some is =>
      if nodupb (map Invoice.id (db_invoices s ++ is)) &&
         forallb (fun i => existsb (String.eqb (Invoice.supplier_id i))
                                   (map Supplier.id (db_suppliers s))) is
      then modify (fun s => mkDb (db_suppliers s) (db_invoices s ++ is));;; ret (RData tt)
      else ret RError
  end.

(** *** The storage service *)

Definition getSuppliers : M (list Supplier.t) :=
  r <- sb_select_suppliers;;
  match r with
  | RError => ret []
  | RData data => ret data
  end.

Definition getInvoices : M (list Invoice.t) :=
  r <- sb_select_invoices;;
  match r with
  | RError => ret []
  | RData data => ret data
  end.

Definition deleteSupplier (id : string) : M unit :=
  r <- sb_delete_supplier id;;
  ret tt.

Definition deleteAllSuppliers : M unit :=
  sb_delete_invoices_neq nil_uuid;;;
  sb_delete_suppliers_neq nil_uuid;;;
  ret tt.

(** [exportDatabase], as the object [JSON.stringify] writes to the backup
    file. *)
Definition exportDatabase : M json :=
  suppliers <- getSuppliers;;
  invoices <- getInvoices;;
  e <- ask;;
  ret (JsonObj [("suppliers", JsonArr (map supplier_to_json suppliers));
                ("invoices", JsonArr (map invoice_to_json invoices));
                ("timestamp", JsonStr (now e));
                ("version", JsonStr "2.0 (Supabase)")]).

Definition getUser : M (option string) := e <- ask;; ret (auth_user e).

Definition index_key (k : nat) : string := num_to_string (JNum (Z.of_nat k)).

Fixpoint indexed {A} (f : A -> json) (k : nat) (l : list A) : list (string * json) :=
  match l with
  | [] => []
  | x :: t => (index_key k, f x) :: indexed f (S k) t
  end.

Fixpoint string_chars (s : string) : list string :=
  match s with
  | EmptyString => []
  | String c t => String c EmptyString :: string_chars t
  end.

(** [({ ...s, user_id: user.id })] *)
Definition with_user_id (uid : string) (s : json) : json :=
  let own := match s with
             | JsonObj fs => fs
             | JsonArr l => indexed (fun x => x) 0 l
             | JsonStr str => indexed JsonStr 0 (string_chars str)
             | _ => []
             end in
  JsonObj (own ++ [("user_id", JsonStr uid)]).

(** [importDatabase] after [JSON.parse(jsonData)], whose result is [parsed]
    ([None] is a [SyntaxError]). The try block is [import_body]. *)
Definition import_body (parsed : option json) : M bool :=
  user <- getUser;;
  match user with
  | None => throw "Utente non loggato"
  | Some uid =>
      data <- (match parsed with None => throw "SyntaxError" | Some d => ret d end);;
      sups <- get_prop data "suppliers";;
      match sups with
      | Some (JsonArr sl) =>
          invs <- get_prop data "invoices";;
          match invs with
          | Some (JsonArr il) =>
              deleteAllSuppliers;;;
              let suppliersToImport := map (with_user_id uid) sl in
              let invoicesToImport := map (with_user_id uid) il in
              (if (0 <? List.length suppliersToImport)%nat then
                 r <- sb_insert_suppliers suppliersToImport;;
                 match r with RError => throw "supError" | RData _ => ret tt end
               else ret tt);;;
              (if (0 <? List.length invoicesToImport)%nat then
                 r <- sb_insert_invoices invoicesToImport;;
                 match r with RError => throw "invError" | RData _ => ret tt end
               else ret tt);;;
              ret true
          | _ => throw "Invalid data format"
          end
      | _ => throw "Invalid data format"
      end
  end.

Definition import_parsed (parsed : option json) : M bool :=
  try_catch (import_body parsed) (fun _ => ret false).

(** [importDatabase(jsonData)], with [JSON.parse] as [json_parse]. *)
Definition importDatabase (json_parse : string -> option json) (jsonData : string)
  : M bool :=
  import_parsed (json_parse jsonData).

(** ** Predicates used to state the properties *)

(** [data.key] for a parsed document that is not [null]. *)
Definition field_of (data : json) (key : string) : option json :=
  match data with JsonObj fs => assoc_last fs key | _ => None end.

(** The foreign key of the schema: every stored invoice names a stored
    supplier. *)
Definition fk_ok (s : db) : Prop :=
  forall i, In i (db_invoices s) ->
            In (Invoice.supplier_id i) (map Supplier.id (db_suppliers s)).

Definition valid_time `{D : JsDate} (i : InvoiceWithSupplier.t) : Prop :=
  exists t, first_time i = JNum t.

Definition time_key `{D : JsDate} (i : InvoiceWithSupplier.t) : Z :=
  match first_time i with JNum t => t | JNaN => 0 end.

(** The document [exportDatabase] builds from the two fetched lists. *)
Definition export_doc (suppliers : list Supplier.t) (invoices : list Invoice.t)
  (timestamp : string) : json :=
  JsonObj [("suppliers", JsonArr (map supplier_to_json suppliers));
           ("invoices", JsonArr (map invoice_to_json invoices));
           ("timestamp", JsonStr timestamp);
           ("version", JsonStr "2.0 (Supabase)")].

(** ** Editing, enrichment and the remaining tabs *)

(** *** Write requests of the editing screens ([src/unnamed/part_003]) *)

(** The requests that [saveSupplier], [saveInvoice] and [deleteInvoice]
    send. *)
Inductive write_call : Type :=
| CDeleteInvoice
| CUpsertSupplier
| CUpsertInvoice.

(** The server's answer to them: which fail, and the id the database
    generates for a record written without one (the comment of
    [saveInvoice]: Postgres generates a new id). *)
Record server : Type := mkServer {
  write_fails : write_call -> bool;
  fresh_id : string
}.

(** Truthiness of a property value; [None] is [undefined]. *)
Definition json_truthy (v : option json) : bool :=
  match v with
  | None | Some JsonNull => false
  | Some (JsonBool b) => b
  | Some (JsonNum z) => negb (z =? 0)
  | Some (JsonStr s) => negb (String.eqb s EmptyString)
  | Some (JsonArr _) | Some (JsonObj _) => true
  end.

(** [v || d] *)
Definition json_or (v : option json) (d : json) : json :=
  match v with
  | Some x => if json_truthy (Some x) then x else d
  | None => d
  end.

Definition replace_supplier (x : Supplier.t) (l : list Supplier.t) : list Supplier.t :=
  map (fun y => if supplier_has_id (Supplier.id x) y then x else y) l.

Definition replace_invoice (x : Invoice.t) (l : list Invoice.t) : list Invoice.t :=
  map (fun y => if String.eqb (Invoice.id y) (Invoice.id x) then x else y) l.

(** [supabase.from('suppliers').upsert(payload).select().single()]: the
    record is stored under its id, replacing the row with that id if there
    is one and added otherwise; a record without an id gets a generated one
    (a leading binding that any [id] of the payload overrides). The stored
    row is returned. *)
Definition sb_upsert_supplier (sv : server) (payload : list (string * json))
  : M (response Supplier.t) :=
  if write_fails sv CUpsertSupplier then ret RError else
  match json_to_supplier (JsonObj (("id", JsonStr (fresh_id sv)) :: payload)) with
  | None => ret RError
  | Some x =>
      s <- gets id;;
      (if existsb (supplier_has_id (Supplier.id x)) (db_suppliers s)
       then modify (fun s => mkDb (replace_supplier x (db_suppliers s)) (db_invoices s))
       else modify (fun s => mkDb (db_suppliers s ++ [x]) (db_invoices s)));;;
      ret (RData x)
  end.

(** [supabase.from('invoices').upsert(payload).select().single()], also
    rejected when [supplier_id] names no stored supplier. *)
Definition sb_upsert_invoice (sv : server) (payload : list (string * json))
  : M (response Invoice.t) :=
  if write_fails sv CUpsertInvoice then ret RError else
  match json_to_invoice (JsonObj (("id", JsonStr (fresh_id sv)) :: payload)) with
  | None => ret RError
  | Some x =>
      s <- gets id;;
      if existsb (String.eqb (Invoice.supplier_id x)) (map Supplier.id (db_suppliers s)) then
        (if existsb (fun y => String.eqb (Invoice.id y) (Invoice.id x)) (db_invoices s)
         then modify (fun s => mkDb (db_suppliers s) (replace_invoice x (db_invoices s)))
         else modify (fun s => mkDb (db_suppliers s) (db_invoices s ++ [x])));;;
        ret (RData x)
      else ret RError
  end.

(** [supabase.from('invoices').delete().eq('id', id)] *)
Definition sb_delete_invoice (sv : server) (id : string) : M (response unit) :=
  if write_fails sv CDeleteInvoice then ret RError else
  modify (fun s => mkDb (db_suppliers s)
                        (filter (fun i => negb (String.eqb (Invoice.id i) id))
                                (db_invoices s)));;;
  ret (RData tt).

(** [saveSupplier(supplier)], the supplier object given by its fields. *)
Definition saveSupplier (sv : server) (supplier : list (string * json))
  : M (option Supplier.t) :=
  user <- getUser;;
  match user with
  | None => ret None
  | Some uid =>
      r <- sb_upsert_supplier sv (supplier ++ [("user_id", JsonStr uid)]);;
      match r with
      | RError => ret None
      | RData data => ret (Some data)
      end
  end.

(** The [payload] of [saveInvoice]: [{ ...invoice, user_id, creation_date:
    invoice.creation_date || now }], then [delete payload.id] when the id is
    falsy. *)
Definition saveInvoice_payload (uid nowIso : string) (invoice : list (string * json))
  : list (string * json) :=
  let payload :=
    invoice ++ [("user_id", JsonStr uid);
                ("creation_date", json_or (assoc_last invoice "creation_date")
                                          (JsonStr nowIso))] in
  if json_truthy (assoc_last payload "id") then payload
  else filter (fun kv => negb (String.eqb (fst kv) "id")) payload.

(** [saveInvoice(invoice)], the invoice object given by its fields. *)
Definition saveInvoice (sv : server) (invoice : list (string * json))
  : M (option Invoice.t) :=
  user <- getUser;;
  match user with
  | None => ret None
  | Some uid =>
      e <- ask;;
      r <- sb_upsert_invoice sv (saveInvoice_payload uid (now e) invoice);;
      match r with
      | RError => ret None
      | RData data => ret (Some data)
      end
  end.

(** [deleteInvoice(id)] *)
Definition deleteInvoice (sv : server) (id : string) : M unit :=
  r <- sb_delete_invoice sv id;;
  ret tt.

(** *** The row editor of [InvoiceModal] ([src/unnamed/part_002]) *)

(** [emptyRow()], with the value of [crypto.randomUUID()] and today's date
    as arguments. *)
Definition emptyRow (uuid today : string) : InvoiceRow.t :=
  InvoiceRow.mk uuid today EmptyString EmptyString (JNumber 0) (JNumber 0).

(** [addRow] *)
Definition addRow (uuid today : string) (prev : list InvoiceRow.t) : list InvoiceRow.t :=
  prev ++ [emptyRow uuid today].

(** [removeRow(id)] ([rows] and [prev] are the same state). *)
Definition removeRow (id : string) (rows : list InvoiceRow.t) : list InvoiceRow.t :=
  if (1 <? List.length rows)%nat
  then filter (fun r => negb (String.eqb (InvoiceRow.id r) id)) rows
  else rows.

(** [calculateTotal] *)
Definition calculateTotal (rows : list InvoiceRow.t) : jsnum :=
  fold_left (fun acc row => js_add acc (js_sub (Number (InvoiceRow.credit row))
                                               (Number (InvoiceRow.debit row))))
            rows (JNum 0).

(** [JSON.stringify] of a number: [NaN] is written as [null]. *)
Definition number_to_json (x : jsnum) : json :=
  match x with
  | JNum z => JsonNum z
  | JNaN => JsonNull
  end.

(** An element of [cleanRows], [{ ...r, credit: Number(r.credit), debit:
    Number(r.debit) }], as the request body carries it. *)
Definition cleanRow (r : InvoiceRow.t) : json :=
  JsonObj [("id", JsonStr (InvoiceRow.id r));
           ("date", JsonStr (InvoiceRow.date r));
           ("description", JsonStr (InvoiceRow.description r));
           ("protocol", JsonStr (InvoiceRow.protocol r));
           ("credit", number_to_json (Number (InvoiceRow.credit r)));
           ("debit", number_to_json (Number (InvoiceRow.debit r)))].

(** The object [handleSave] passes to [saveInvoice]: [{ id:
    existingInvoice?.id, supplier_id, rows: cleanRows, creation_date:
    existingInvoice?.creation_date }] ([undefined] fields left out). *)
Definition handleSave_invoice (existingInvoice : option Invoice.t) (supplierId : string)
  (rows : list InvoiceRow.t) : list (string * json) :=
  opt_field "id" (option_map (fun i => JsonStr (Invoice.id i)) existingInvoice)
  ++ [("supplier_id", JsonStr supplierId); ("rows", JsonArr (map cleanRow rows))]
  ++ opt_field "creation_date"
       (option_map (fun i => JsonStr (Invoice.creation_date i)) existingInvoice).

(** *** [getEnrichedInvoices] ([src/unnamed/part_001]) *)

(** [suppliers.find(s => s.id === inv.supplier_id)] *)
Definition find_supplier (suppliers : list Supplier.t) (inv : Invoice.t) : option Supplier.t :=
  find (supplier_has_id (Invoice.supplier_id inv)) suppliers.

(** The callback of [invoices.map]: [Some None] is [null]; [None] is the
    [TypeError] of [getInvoiceInitialAmount]. *)
Definition enrich (suppliers : list Supplier.t) (inv : Invoice.t)
  : option (option InvoiceWithSupplier.t) :=
  match find_supplier suppliers inv with
  | None => Some None
  | Some supplier =>
      match getInvoiceInitialAmount inv with
      | None => None
      | Some initialAmount =>
          Some (Some (InvoiceWithSupplier.mk (Invoice.id inv) (Invoice.supplier_id inv)
                        (Invoice.creation_date inv) (Invoice.rows inv) supplier
                        (calculateInvoiceBalance inv) initialAmount))
      end
  end.

(** [.filter(i => i !== null)] *)
Fixpoint non_null {A} (l : list (option A)) : list A :=
  match l with
  | [] => []
  | Some x :: t => x :: non_null t
  | None :: t => non_null t
  end.

Definition getEnrichedInvoices (suppliers : list Supplier.t) (invoices : list Invoice.t)
  : option (list InvoiceWithSupplier.t) :=
  match map_opt (enrich suppliers) invoices with
  | None => None
  | Some l => Some (non_null l)
  end.

(** *** Sorting with a comparator that may throw *)

(** [Array.prototype.sort] with a comparator that may throw ([None]), as a
    stable insertion sort: [b] is placed before [a] exactly when
    [cmp a b > 0]. *)
Fixpoint insert_by_opt {A} (cmp : A -> A -> option jsnum) (x : A) (l : list A)
  : option (list A) :=
  match l with
  | [] => Some [x]
  | y :: t =>
      match cmp x y with
      | None => None
      | Some c =>
          if js_gt0 c then option_map (cons y) (insert_by_opt cmp x t)
          else Some (x :: y :: t)
      end
  end.

Fixpoint sort_by_opt {A} (cmp : A -> A -> option jsnum) (l : list A) : option (list A) :=
  match l with
  | [] => Some []
  | x :: t =>
      match sort_by_opt cmp t with
      | None => None
      | Some r => insert_by_opt cmp x r
      end
  end.

(** [list.reduce((acc, curr) => acc + curr.balance, 0)] *)
Definition sumBalances (l : list InvoiceWithSupplier.t) : jsnum :=
  fold_left (fun acc curr => js_add acc (InvoiceWithSupplier.balance curr)) l (JNum 0).

(** [Object.is]-like equality of numbers used by [Set] (SameValueZero). *)
Definition jsnum_eqb (a b : jsnum) : bool :=
  match a, b with
  | JNum x, JNum y => x =? y
  | JNaN, JNaN => true
  | _, _ => false
  end.

(** [Array.from(new Set(l))]: the first occurrence of each value, in order. *)
Definition set_from (l : list jsnum) : list jsnum :=
  fold_left (fun acc x => if existsb (jsnum_eqb x) acc then acc else acc ++ [x]) l [].

(** [.sort()] with no comparator: by the strings of the elements, stable. *)
Fixpoint insert_by_string (x : jsnum) (l : list jsnum) : list jsnum :=
  match l with
  | [] => [x]
  | y :: t =>
      if String.ltb (num_to_string y) (num_to_string x)
      then y :: insert_by_string x t
      else x :: y :: t
  end.

Fixpoint sort_default (l : list jsnum) : list jsnum :=
  match l with
  | [] => []
  | x :: t => insert_by_string x (sort_default t)
  end.

Section Tabs2.
Context `{D : JsDate}.

(** [new Date(i.rows[0]?.date || '').getTime()] of [SupplierDetailTab];
    [None] is the [TypeError] of [i.rows[0]] when [rows] is [null] or
    [undefined]. *)
Definition detail_time (i : InvoiceWithSupplier.t) : option jsnum :=
  match first_row_date (InvoiceWithSupplier.rows i) with
  | None => None
  | Some fd => Some (date_getTime (Some (match fd with Some d => d | None => EmptyString end)))
  end.

Definition detail_cmp (a b : InvoiceWithSupplier.t) : option jsnum :=
  match detail_time a, detail_time b with
  | Some ta, Some tb => Some (js_sub ta tb)
  | _, _ => None
  end.

(** [supplierInvoices] of [SupplierDetailTab]. *)
Definition supplierInvoices (selectedSupplierId : string)
  (enrichedInvoices : list InvoiceWithSupplier.t) : option (list InvoiceWithSupplier.t) :=
  sort_by_opt detail_cmp
    (filter (fun i => String.eqb (InvoiceWithSupplier.supplier_id i) selectedSupplierId &&
                      js_neq0 (InvoiceWithSupplier.balance i))
            enrichedInvoices).

(** [totalBalance] of [SupplierDetailTab]. *)
Definition totalBalance (supplierInvoices : list InvoiceWithSupplier.t) : jsnum :=
  fold_left (fun acc curr => js_add acc (InvoiceWithSupplier.balance curr))
            supplierInvoices (JNum 0).

(** [new Date(a.rows[0]?.date).getTime()] of the dashboard's comparator. *)
Definition row_time (i : InvoiceWithSupplier.t) : option jsnum :=
  option_map date_getTime (first_row_date (InvoiceWithSupplier.rows i)).

Definition active_cmp (a b : InvoiceWithSupplier.t) : option jsnum :=
  match row_time a, row_time b with
  | Some ta, Some tb => Some (js_sub ta tb)
  | _, _ => None
  end.

(** The two lists [ActiveInvoicesTab] renders: [merchandiseInvoices] and
    [toPayInvoices] after [applyFilters(...).sort(...)]. *)
Definition dashboardLists (f : Filters) (enrichedInvoices : list InvoiceWithSupplier.t)
  : option (list InvoiceWithSupplier.t * list InvoiceWithSupplier.t) :=
  match applyFilters f (merchandiseInvoices enrichedInvoices) with
  | None => None
  | Some m =>
      match sort_by_opt active_cmp m with
      | None => None
      | Some m' =>
          match applyFilters f (toPayInvoices enrichedInvoices) with
          | None => None
          | Some p =>
              match sort_by_opt active_cmp p with
              | None => None
              | Some p' => Some (m', p')
              end
          end
      end
  end.

(** [new Date(i.rows[0]?.date).getFullYear()] *)
Definition invoice_year (i : InvoiceWithSupplier.t) : option jsnum :=
  option_map date_getFullYear (first_row_date (InvoiceWithSupplier.rows i)).

(** [years] of [ActiveInvoicesTab] and [HistoryTab]:
    [Array.from(new Set(years)).sort().reverse()]. *)
Definition years (enrichedInvoices : list InvoiceWithSupplier.t) : option (list jsnum) :=
  match map_opt invoice_year enrichedInvoices with
  | None => None
  | Some ys => Some (rev (sort_default (set_from ys)))
  end.
End Tabs2.

(** [filtered] of [SupplierListTab], for a given [String.prototype.localeCompare]. *)
Definition supplierList (localeCompare : string -> string -> Z) (search : string)
  (suppliers : list Supplier.t) : list Supplier.t :=
  sort_by (fun a b => JNum (localeCompare (Supplier.name a) (Supplier.name b)))
          (filter (fun s => includes (toLowerCase (Supplier.name s)) (toLowerCase search))
                  suppliers).

(** *** The data handlers of [App] ([src/unnamed/part_001]) *)

(** The state of [App] the handlers read and write, and the [alert]s shown. *)
Module App.
Record editing : Type := mkEditing {
  isOpen : bool;
  supplierId : string;
  invoice : option Invoice.t
}.

Record t : Type := mk {
  session : bool;
  activeTab : Z;
  suppliers : list Supplier.t;
  invoices : list Invoice.t;
  isLoading : bool;
  selectedSupplierId : option string;
  supplierToDelete : option string;
  invoiceToDelete : option string;
  isDeleteAllModalOpen : bool;
  editingInvoice : editing;
  alerts : list string
}.

Definition set_activeTab (v : Z) (a : t) : t :=
  mk (session a) v (suppliers a) (invoices a) (isLoading a) (selectedSupplierId a)
     (supplierToDelete a) (invoiceToDelete a) (isDeleteAllModalOpen a) (editingInvoice a)
     (alerts a).
Definition set_suppliers (v : list Supplier.t) (a : t) : t :=
  mk (session a) (activeTab a) v (invoices a) (isLoading a) (selectedSupplierId a)
     (supplierToDelete a) (invoiceToDelete a) (isDeleteAllModalOpen a) (editingInvoice a)
     (alerts a).
Definition set_invoices (v : list Invoice.t) (a : t) : t :=
  mk (session a) (activeTab a) (suppliers a) v (isLoading a) (selectedSupplierId a)
     (supplierToDelete a) (invoiceToDelete a) (isDeleteAllModalOpen a) (editingInvoice a)
     (alerts a).
Definition set_isLoading (v : bool) (a : t) : t :=
  mk (session a) (activeTab a) (suppliers a) (invoices a) v (selectedSupplierId a)
     (supplierToDelete a) (invoiceToDelete a) (isDeleteAllModalOpen a) (editingInvoice a)
     (alerts a).
Definition set_selectedSupplierId (v : option string) (a : t) : t :=
  mk (session a) (activeTab a) (suppliers a) (invoices a) (isLoading a) v
     (supplierToDelete a) (invoiceToDelete a) (isDeleteAllModalOpen a) (editingInvoice a)
     (alerts a).
Definition set_supplierToDelete (v : option string) (a : t) : t :=
  mk (session a) (activeTab a) (suppliers a) (invoices a) (isLoading a)
     (selectedSupplierId a) v (invoiceToDelete a) (isDeleteAllModalOpen a)
     (editingInvoice a) (alerts a).
Definition set_invoiceToDelete (v : option string) (a : t) : t :=
  mk (session a) (activeTab a) (suppliers a) (invoices a) (isLoading a)
     (selectedSupplierId a) (supplierToDelete a) v (isDeleteAllModalOpen a)
     (editingInvoice a) (alerts a).
Definition set_isDeleteAllModalOpen (v : bool) (a : t) : t :=
  mk (session a) (activeTab a) (suppliers a) (invoices a) (isLoading a)
     (selectedSupplierId a) (supplierToDelete a) (invoiceToDelete a) v
     (editingInvoice a) (alerts a).
Definition set_editingInvoice (f : editing -> editing) (a : t) : t :=
  mk (session a) (activeTab a) (suppliers a) (invoices a) (isLoading a)
     (selectedSupplierId a) (supplierToDelete a) (invoiceToDelete a)
     (isDeleteAllModalOpen a) (f (editingInvoice a)) (alerts a).
(** [alert(msg)] *)
Definition push_alert (msg : string) (a : t) : t :=
  mk (session a) (activeTab a) (suppliers a) (invoices a) (isLoading a)
     (selectedSupplierId a) (supplierToDelete a) (invoiceToDelete a)
     (isDeleteAllModalOpen a) (editingInvoice a) (alerts a ++ [msg]).
End App.

(** A handler of [App]: the storage service's effects plus the state of
    [App]. State setters are applied in program order. *)
Definition AM (A : Type) : Type := env -> App.t * db -> outcome A * (App.t * db).

Definition retA {A} (a : A) : AM A := fun _ st => (Ok a, st).

Definition bindA {A B} (m : AM A) (k : A -> AM B) : AM B :=
  fun e st =>
    match m e st with
    | (Ok a, st') => k a e st'
    | (Throw x, st') => (Throw x, st')
    end.

Definition lift {A} (m : M A) : AM A :=
  fun e st => let (r, s') := m e (snd st) in (r, (fst st, s')).

Definition getApp : AM App.t := fun _ st => (Ok (fst st), st).

Definition setApp (f : App.t -> App.t) : AM unit := fun _ st => (Ok tt, (f (fst st), snd st)).

Definition try_catchA {A} (m : AM A) (h : string -> AM A) : AM A :=
  fun e st =>
    match m e st with
    | (Throw x, st') => h x e st'
    | r => r
    end.

(** [try { m } finally { fin }] *)
Definition finallyA {A} (m : AM A) (fin : AM unit) : AM A :=
  fun e st =>
    let (r, st1) := m e st in
    match fin e st1 with
    | (Ok _, st2) => (r, st2)
    | (Throw x, st2) => (Throw x, st2)
    end.

Notation "x <~ m ;; k" := (bindA m (fun x => k))
  (at level 61, m at next level, right associativity).
Notation "m ;~ k" := (bindA m (fun _ => k))
  (at level 61, right associativity).

(** [refreshData] *)
Definition refreshData : AM unit :=
  st <~ getApp;;
  if negb (App.session st) then retA tt else
  setApp (App.set_isLoading true);~
  finallyA
    (try_catchA
       (s <~ lift getSuppliers;;
        i <~ lift getInvoices;;
        setApp (App.set_suppliers s);~
        setApp (App.set_invoices i))
       (fun _ => retA tt))
    (setApp (App.set_isLoading false)).

Definition close_editing (prev : App.editing) : App.editing :=
  App.mkEditing false (App.supplierId prev) None.

(** [confirmDeleteInvoice] *)
Definition confirmDeleteInvoice (sv : server) : AM unit :=
  st <~ getApp;;
  match App.invoiceToDelete st with
  | None => retA tt
  | Some invoiceToDelete =>
      if str_empty invoiceToDelete then retA tt else
      setApp (App.set_isLoading true);~
      finallyA
        (try_catchA
           (lift (deleteInvoice sv invoiceToDelete);~
            setApp (App.set_editingInvoice close_editing);~
            setApp (App.set_invoiceToDelete None);~
            refreshData)
           (fun _ => setApp (App.push_alert "Errore durante l'eliminazione della fattura")))
        (setApp (App.set_isLoading false))
  end.

(** [confirmDeleteSupplier]; [supplierToDelete] and [selectedSupplierId] are
    the values the handler's closure captured. *)
Definition confirmDeleteSupplier : AM unit :=
  st <~ getApp;;
  match App.supplierToDelete st with
  | None => retA tt
  | Some supplierToDelete =>
      if str_empty supplierToDelete then retA tt else
      setApp (App.set_isLoading true);~
      lift (deleteSupplier supplierToDelete);~
      setApp (App.set_supplierToDelete None);~
      refreshData;~
      (if match App.selectedSupplierId st with
          | Some sel => String.eqb sel supplierToDelete
          | None => false
          end
       then setApp (App.set_selectedSupplierId None);~ setApp (App.set_activeTab 0)
       else retA tt);~
      setApp (App.set_isLoading false)
  end.

(** [confirmDeleteAllSuppliers] *)
Definition confirmDeleteAllSuppliers : AM unit :=
  setApp (App.set_isLoading true);~
  lift deleteAllSuppliers;~
  setApp (App.set_isDeleteAllModalOpen false);~
  refreshData;~
  setApp (App.set_selectedSupplierId None);~
  setApp (App.set_activeTab 0);~
  setApp (App.set_isLoading false).

Definition import_ok_alert : string := "Dati importati con successo su Supabase!".
Definition import_error_alert : string := "Errore durante l'importazione. Controlla il file.".

(** [reader.onload] of [handleFileChange], for the file's text [content]. *)
Definition onImportLoad (json_parse : string -> option json) (content : string) : AM unit :=
  if str_empty content then retA tt else
  setApp (App.set_isLoading true);~
  success <~ lift (importDatabase json_parse content);;
  (if success then
     refreshData;~
     setApp (App.push_alert import_ok_alert);~
     setApp (App.set_activeTab 0)
   else setApp (App.push_alert import_error_alert));~
  setApp (App.set_isLoading false).

Definition supplier_updated_alert : string := "Dati fornitore aggiornati".

(** [handleUpdateSupplier] of [SupplierDetailTab]; [formData] is the edited
    supplier object, given by its fields ([None] is [null]). *)
Definition handleUpdateSupplier (sv : server) (formData : option (list (string * json)))
  : AM unit :=
  match formData with
  | None => retA tt
  | Some fd =>
      setApp (App.set_isLoading true);~
      r <~ lift (saveSupplier sv fd);;
      refreshData;~
      setApp (App.push_alert supplier_updated_alert);~
      setApp (App.set_isLoading false)
  end.

(** *** [handleSubmit] of [ChangePasswordModal] ([src/unnamed/part_002]) *)

Inductive message_type : Type :=
| MsgSuccess
| MsgError.

(** The state of the form; [closeScheduled] records the [setTimeout] that
    closes the modal later. *)
Module PwForm.
Record t : Type := mk {
  password : string;
  confirmPassword : string;
  loading : bool;
  message : option (message_type * string);
  closeScheduled : bool
}.

Definition set_message (v : option (message_type * string)) (a : t) : t :=
  mk (password a) (confirmPassword a) (loading a) v (closeScheduled a).
Definition set_loading (v : bool) (a : t) : t :=
  mk (password a) (confirmPassword a) v (message a) (closeScheduled a).
Definition set_password (v : string) (a : t) : t :=
  mk v (confirmPassword a) (loading a) (message a) (closeScheduled a).
Definition set_confirmPassword (v : string) (a : t) : t :=
  mk (password a) v (loading a) (message a) (closeScheduled a).
Definition schedule_close (a : t) : t :=
  mk (password a) (confirmPassword a) (loading a) (message a) true.
End PwForm.

Definition pw_mismatch_msg : string := "Le password non coincidono.".
Definition pw_short_msg : string := "La password deve avere almeno 6 caratteri.".
Definition pw_updated_msg : string := "Password aggiornata con successo!".

(** [handleSubmit]: [updateUser_error p] is the [error.message] of
    [supabase.auth.updateUser({ password: p })] ([None] when it succeeds);
    the second component lists the passwords sent to it. [password.length]
    is [String.length], the length of an ASCII password. *)
Definition handleSubmit (updateUser_error : string -> option string) (st : PwForm.t)
  : PwForm.t * list string :=
  let st1 := PwForm.set_message None st in
  if negb (String.eqb (PwForm.password st1) (PwForm.confirmPassword st1)) then
    (PwForm.set_message (Some (MsgError, pw_mismatch_msg)) st1, [])
  else if (String.length (PwForm.password st1) <? 6)%nat then
    (PwForm.set_message (Some (MsgError, pw_short_msg)) st1, [])
  else
    let st2 := PwForm.set_loading true st1 in
    let sent := [PwForm.password st2] in
    let st3 := PwForm.set_loading false st2 in
    match updateUser_error (PwForm.password st2) with
    | Some m => (PwForm.set_message (Some (MsgError, m)) st3, sent)
    | None =>
        (PwForm.schedule_close
           (PwForm.set_confirmPassword EmptyString
              (PwForm.set_password EmptyString
                 (PwForm.set_message (Some (MsgSuccess, pw_updated_msg)) st3))), sent)
    end.

(** ** Concrete data used by the examples below *)

Module Sample.
Definition supA : Supplier.t := Supplier.mk "A" "Acme" "IT00X" "a@acme.it" "0101" EmptyString false.
Definition supM : Supplier.t := Supplier.mk "M" "Merci Srl" "IT00Y" "m@merci.it" "0202" EmptyString true.
Definition row_charge : InvoiceRow.t :=
    InvoiceRow.mk "r1" "2024-03-01" "Fattura" "P1" (JNumber 100) (JNumber 0).
Definition row_payment : InvoiceRow.t :=
    InvoiceRow.mk "r2" "2024-03-20" "Bonifico" "P1" (JNumber 0) (JNumber 100).
Definition invX : Invoice.t :=
    Invoice.mk "X" "A" "2024-03-01T10:00:00Z" (RowsArray [row_charge]).
  (** A row whose [credit] field is missing. *)
Definition row_no_credit : InvoiceRow.t :=
    InvoiceRow.mk "r1" "2024-03-01" "Fattura" "P2" JUndefined (JNumber 0).
Definition inv_no_credit : Invoice.t :=
    Invoice.mk "Y" "A" "2024-03-01T10:00:00Z" (RowsArray [row_no_credit]).
Definition db_one : db := mkDb [supA] [invX].
Definition db_empty : db := mkDb [] [].
Definition env_ok : env := mkEnv (Some "user-1") (fun _ => false) "2026-10-17T09:00:00Z".
Definition env_failing (c0 : call) : env :=
    mkEnv (Some "user-1")
          (fun c => match c, c0 with
                    | CSelectSuppliers, CSelectSuppliers | CSelectInvoices, CSelectInvoices
                    | CDeleteSupplier, CDeleteSupplier => true
                    | _, _ => false
                    end)
          "2026-10-17T09:00:00Z".
  (** UTC midnight of a [YYYY-MM-DD] string, as milliseconds. *)
Definition iso_days (s : string) : option Z :=
    match list_ascii_of_string s with
    | [y1; y2; y3; y4; "-"; m1; m2; "-"; d1; d2]%char =>
        match parse_digits 0 [y1; y2; y3; y4], parse_digits 0 [m1; m2],
              parse_digits 0 [d1; d2] with
        | Some y, Some m, Some d => Some (y * 372 + m * 31 + d)
        | _, _, _ => None
        end
    | _ => None
    end.
  (** A [Date] whose time order follows the calendar order of ISO dates
      (an order-preserving stand-in for the UTC millisecond count). *)
#[global] Instance utc_date : JsDate := {|
    date_getTime := fun d => match d with
                             | Some s => match iso_days s with Some t => JNum t | None => JNaN end
                             | None => JNaN end;
    date_getMonth := fun d => match d with
                              | Some s => match list_ascii_of_string s with
                                          | [_; _; _; _; "-"; m1; m2; "-"; _; _]%char =>
                                              match parse_digits 0 [m1; m2] with
                                              | Some m => JNum (m - 1) | None => JNaN end
                                          | _ => JNaN end
                              | None => JNaN end;
    date_getFullYear := fun d => match d with
                                 | Some s => match list_ascii_of_string s with
                                             | [y1; y2; y3; y4; "-"; _; _; "-"; _; _]%char =>
                                                 match parse_digits 0 [y1; y2; y3; y4] with
                                                 | Some y => JNum y | None => JNaN end
                                             | _ => JNaN end
                                 | None => JNaN end
  |}.
Definition enriched (id : string) (s : Supplier.t) (rows : list InvoiceRow.t)
    (bal ini : Z) : InvoiceWithSupplier.t :=
    InvoiceWithSupplier.mk id (Supplier.id s) "2024-01-01T00:00:00Z" (RowsArray rows) s
                           (JNum bal) (JNum ini).
End Sample.

(** ** Concrete data for the storage writes and the handlers of [App] *)

Module Fixtures.
Definition sv_ok : server := mkServer (fun _ => false) "N1".
Definition supB_fields : list (string * json) :=
    [("id", JsonStr "B"); ("name", JsonStr "Beta"); ("iban", JsonStr "IT00Z");
     ("email", JsonStr "b@beta.it"); ("phone", JsonStr "0303"); ("notes", JsonStr EmptyString);
     ("is_merchandise", JsonBool false)].
Definition inv_paid : Invoice.t :=
    Invoice.mk "Z" "A" "2024-03-20T10:00:00Z" (RowsArray [Sample.row_charge; Sample.row_payment]).
Definition inv_orphan : Invoice.t :=
    Invoice.mk "O" "missing" "2024-03-01T10:00:00Z" (RowsArray [Sample.row_charge]).
Definition enr : list InvoiceWithSupplier.t :=
    [Sample.enriched "X" Sample.supA [Sample.row_charge] 100 100;
     Sample.enriched "Z" Sample.supA [Sample.row_charge; Sample.row_payment] 0 100].
Definition no_filters : Filters :=
    mkFilters EmptyString EmptyString EmptyString EmptyString EmptyString false.
Definition app0 : App.t :=
    App.mk true 1 [Sample.supA] [Sample.invX] false (Some "A") (Some "A") (Some "X") false
           (App.mkEditing true "A" (Some Sample.invX)) [].
Definition env_insert_fails : env :=
    mkEnv (Some "user-1") (fun c => match c with CInsertSuppliers => true | _ => false end)
          "2026-10-17T09:00:00Z".
Definition backup_doc : json :=
    JsonObj [("suppliers", JsonArr [supplier_to_json Sample.supA]);
             ("invoices", JsonArr [invoice_to_json Sample.invX])].
Definition parse_backup (text : string) : option json :=
    if String.eqb text "backup" then Some backup_doc else None.
End Fixtures.

(** * Properties *)

(** ** Arithmetic of JavaScript numbers *)

Lemma js_add_assoc (a b c : jsnum) : js_add a (js_add b c) = js_add (js_add a b) c.
Proof. destruct a, b, c; simpl; try reflexivity. f_equal; lia. Qed.

Lemma js_add_0_l (a : jsnum) : js_add (JNum 0) a = a.
Proof. destruct a; reflexivity. Qed.

Lemma js_add_0_r (a : jsnum) : js_add a (JNum 0) = a.
Proof. destruct a; simpl; [f_equal; lia | reflexivity]. Qed.

(** A JavaScript [reduce] with [+] computes the sum of the mapped list. *)
Lemma fold_left_js_add {A} (f : A -> jsnum) (l : list A) (acc : jsnum) :
  fold_left (fun a x => js_add a (f x)) l acc = js_add acc (js_sum (map f l)).
Proof.
  revert acc; induction l as [|x t IH]; intro acc; simpl.
  - now rewrite js_add_0_r.
  - rewrite IH. apply eq_sym, js_add_assoc.
Qed.

Lemma js_sum_nan {A} (f : A -> jsnum) (l : list A) (x : A) :
  In x l -> f x = JNaN -> js_sum (map f l) = JNaN.
Proof.
  induction l as [|y t IH]; simpl; [tauto|].
  intros [-> | Hin] Hx.
  - now rewrite Hx.
  - rewrite (IH Hin Hx). now destruct (f y).
Qed.

Lemma balance_fold (inv : Invoice.t) (rows : list InvoiceRow.t) :
  Invoice.rows inv = RowsArray rows ->
  calculateInvoiceBalance inv = js_sum (map row_amount rows).
Proof.
  intro H. unfold calculateInvoiceBalance. rewrite H.
  change (fold_left (fun a x => js_add a (row_amount x)) rows (JNum 0) =
          js_sum (map row_amount rows)).
  rewrite fold_left_js_add. apply js_add_0_l.
Qed.

(** ** C1: the balance is the sum of the rows *)

(** C1. For every invoice, [calculateInvoiceBalance] is the sum over its rows
    of [Number(credit) - Number(debit)]; it is 0 for an empty row list and 0
    (not an error) when [rows] is not an array. *)
Theorem balance_is_sum_of_rows (inv : Invoice.t) :
  calculateInvoiceBalance inv =
    match Invoice.rows inv with
    | RowsArray rows => js_sum (map row_amount rows)
    | RowsNotArray _ => JNum 0
    end
  /\ (forall id sid cd, calculateInvoiceBalance (Invoice.mk id sid cd (RowsArray [])) = JNum 0)
  /\ (forall id sid cd v, calculateInvoiceBalance (Invoice.mk id sid cd (RowsNotArray v)) = JNum 0).
Proof.
  split; [|split; reflexivity].
  destruct (Invoice.rows inv) as [rows|v] eqn:E.
  - now apply balance_fold.
  - unfold calculateInvoiceBalance. now rewrite E.
Qed.

(** ** C6: how row values are coerced *)

(** C6 (counterexample). An invoice whose only row has no [credit] and a
    [debit] of 0: if the missing value coerced to 0 the balance would be 0,
    but [Number(undefined)] is NaN, so the balance and the initial amount
    are NaN. *)
Lemma missing_credit_gives_nan :
  calculateInvoiceBalance Sample.inv_no_credit = JNaN
  /\ calculateInvoiceBalance Sample.inv_no_credit <> JNum 0
  /\ getInvoiceInitialAmount Sample.inv_no_credit = Some JNaN.
Proof. split; [reflexivity | split; [discriminate | reflexivity]]. Qed.

(** C6 (amended). Row values are coerced with [Number()]: [undefined]
    (a missing value) gives NaN; [null], [false] and blank strings give 0;
    [true] gives 1; a number is kept. A row whose credit or debit is missing
    makes the balance NaN, and the initial amount is [Number()] of the first
    row's credit. *)
Theorem row_values_coerced_by_Number (inv : Invoice.t) (rows : list InvoiceRow.t)
  (r : InvoiceRow.t)
  (Hrows : Invoice.rows inv = RowsArray rows) (Hin : In r rows)
  (Hmiss : InvoiceRow.credit r = JUndefined \/ InvoiceRow.debit r = JUndefined) :
  calculateInvoiceBalance inv = JNaN
  /\ getInvoiceInitialAmount inv =
       Some (match rows with [] => JNum 0 | r0 :: _ => Number (InvoiceRow.credit r0) end)
  /\ Number JUndefined = JNaN /\ Number JNull = JNum 0
  /\ Number (JBool false) = JNum 0 /\ Number (JBool true) = JNum 1
  /\ (forall s, trim s = [] -> Number (JString s) = JNum 0)
  /\ (forall z, Number (JNumber z) = JNum z).
Proof.
  split.
  - rewrite (balance_fold inv rows Hrows).
    apply (js_sum_nan row_amount rows r Hin).
    unfold row_amount. destruct Hmiss as [-> | ->]; [reflexivity|].
    now destruct (Number (InvoiceRow.credit r)).
  - split.
    + unfold getInvoiceInitialAmount. rewrite Hrows. now destruct rows.
    + split; [reflexivity|]. split; [reflexivity|]. split; [reflexivity|].
      split; [reflexivity|]. split; [|reflexivity].
      intros s Hs. simpl. unfold string_to_number. now rewrite Hs.
Qed.

Lemma row_values_coerced_by_Number_witness :
  Invoice.rows Sample.inv_no_credit = RowsArray [Sample.row_no_credit]
  /\ calculateInvoiceBalance Sample.inv_no_credit = JNaN.
Proof.
  split; [reflexivity|].
  refine (proj1 (row_values_coerced_by_Number Sample.inv_no_credit
                   [Sample.row_no_credit] Sample.row_no_credit eq_refl _ _)).
  - simpl; left; reflexivity.
  - left; reflexivity.
Defined.

(** ** C2: the dashboard buckets *)

(** C2. Among the enriched invoices, the merchandise bucket holds exactly the
    open invoices ([balance !== 0]) of merchandise suppliers, whatever the
    sign of the balance; the payable-services bucket holds exactly the open
    invoices of other suppliers with a positive balance; no invoice is in
    both; an open services invoice with a negative balance is in neither. *)
Theorem dashboard_buckets (enrichedInvoices : list InvoiceWithSupplier.t) :
  (forall i, In i (merchandiseInvoices enrichedInvoices) <->
     In i enrichedInvoices /\ js_neq0 (InvoiceWithSupplier.balance i) = true
     /\ Supplier.is_merchandise (InvoiceWithSupplier.supplier i) = true)
  /\ (forall i, In i (toPayInvoices enrichedInvoices) <->
     In i enrichedInvoices /\ js_neq0 (InvoiceWithSupplier.balance i) = true
     /\ Supplier.is_merchandise (InvoiceWithSupplier.supplier i) = false
     /\ js_gt0 (InvoiceWithSupplier.balance i) = true)
  /\ (forall i, In i (merchandiseInvoices enrichedInvoices) ->
     ~ In i (toPayInvoices enrichedInvoices))
  /\ (forall i, In i enrichedInvoices -> js_neq0 (InvoiceWithSupplier.balance i) = true ->
     Supplier.is_merchandise (InvoiceWithSupplier.supplier i) = false ->
     js_lt0 (InvoiceWithSupplier.balance i) = true ->
     ~ In i (merchandiseInvoices enrichedInvoices) /\ ~ In i (toPayInvoices enrichedInvoices)).
Proof.
  unfold merchandiseInvoices, toPayInvoices, activeInvoices.
  assert (Hm : forall i, In i (filter (fun i => Supplier.is_merchandise (InvoiceWithSupplier.supplier i))
                 (filter (fun i => js_neq0 (InvoiceWithSupplier.balance i)) enrichedInvoices)) <->
     In i enrichedInvoices /\ js_neq0 (InvoiceWithSupplier.balance i) = true
     /\ Supplier.is_merchandise (InvoiceWithSupplier.supplier i) = true).
  { intro i. rewrite !filter_In. tauto. }
  assert (Hp : forall i, In i (filter (fun i => negb (Supplier.is_merchandise (InvoiceWithSupplier.supplier i)) &&
                   js_gt0 (InvoiceWithSupplier.balance i))
                 (filter (fun i => js_neq0 (InvoiceWithSupplier.balance i)) enrichedInvoices)) <->
     In i enrichedInvoices /\ js_neq0 (InvoiceWithSupplier.balance i) = true
     /\ Supplier.is_merchandise (InvoiceWithSupplier.supplier i) = false
     /\ js_gt0 (InvoiceWithSupplier.balance i) = true).
  { intro i. rewrite !filter_In, andb_true_iff, negb_true_iff. tauto. }
  split; [exact Hm|]. split; [exact Hp|]. split.
  - intros i H1 H2. apply Hm in H1. apply Hp in H2. destruct H1 as (_ & _ & E1).
    destruct H2 as (_ & _ & E2 & _). congruence.
  - intros i _ _ Hf Hlt. split.
    + intros H. apply Hm in H. destruct H as (_ & _ & E). congruence.
    + intros H. apply Hp in H. destruct H as (_ & _ & _ & Hgt).
      destruct (InvoiceWithSupplier.balance i) as [z|]; simpl in *; [|discriminate].
      apply Z.ltb_lt in Hlt. apply Z.ltb_lt in Hgt. lia.
Qed.

(** ** C9: the dashboard filters are idempotent *)

Lemma filter_opt_idem {A} (p : A -> option bool) (l r : list A) :
  filter_opt p l = Some r -> filter_opt p r = Some r.
Proof.
  revert r; induction l as [|x t IH]; intros r H; simpl in H.
  - now injection H as <-.
  - destruct (p x) as [b|] eqn:Ep; [|discriminate].
    destruct (filter_opt p t) as [r'|] eqn:Et; [|discriminate].
    injection H as <-. specialize (IH r' eq_refl).
    destruct b; [|exact IH]. simpl. now rewrite Ep, IH.
Qed.

(** C9. For every list of enriched invoices and every filter state, running
    [applyFilters] on its own result gives that result back (and when the
    first run throws, there is nothing to run again). *)
Theorem applyFilters_idempotent `{D : JsDate} (f : Filters)
  (invList : list InvoiceWithSupplier.t) :
  match applyFilters f invList with
  | Some r => applyFilters f r
  | None => None
  end = applyFilters f invList.
Proof.
  unfold applyFilters. destruct (filter_opt (applyFilters_pred f) invList) eqn:E.
  - exact (filter_opt_idem _ _ _ E).
  - reflexivity.
Qed.

(** ** C7: the history tab *)

Lemma filter_opt_total {A} (p : A -> option bool) (l : list A) :
  (forall x, In x l -> p x <> None) ->
  exists r, filter_opt p l = Some r /\ (forall x, In x r <-> In x l /\ p x = Some true).
Proof.
  induction l as [|x t IH]; intro Hp; simpl.
  - exists []. split; [reflexivity | simpl; tauto].
  - destruct IH as [r [Er Hr]]; [intros y Hy; apply Hp; now right|].
    destruct (p x) as [b|] eqn:Ep; [|exfalso; apply (Hp x); [now left | exact Ep]].
    rewrite Er. exists (if b then x :: r else r). split; [reflexivity|].
    intro y. destruct b; simpl; rewrite Hr; split.
    + intros [<- | [H1 H2]]; [split; [now left | exact Ep] | split; [now right | exact H2]].
    + intros [[<- | H1] H2]; [now left | right; split; assumption].
    + intros [H1 H2]; split; [now right | exact H2].
    + intros [[<- | H1] H2]; [congruence | split; assumption].
Qed.

Lemma insert_by_perm {A} (cmp : A -> A -> jsnum) (x : A) (l : list A) :
  Permutation (insert_by cmp x l) (x :: l).
Proof.
  induction l as [|y t IH]; simpl; [reflexivity|].
  destruct (js_gt0 (cmp x y)); [|reflexivity].
  rewrite IH. apply perm_swap.
Qed.

Lemma sort_by_perm {A} (cmp : A -> A -> jsnum) (l : list A) :
  Permutation (sort_by cmp l) l.
Proof.
  induction l as [|x t IH]; simpl; [reflexivity|].
  rewrite insert_by_perm. now apply perm_skip.
Qed.

Section SortByKey.
Context {A : Type} (cmp : A -> A -> jsnum) (key : A -> Z) (P : A -> Prop).
Hypothesis cmp_key : forall a b, P a -> P b -> cmp a b = JNum (key b - key a).

Lemma insert_by_sorted (x : A) (l : list A) :
    P x -> Forall P l -> StronglySorted (fun a b => key b <= key a) l -> StronglySorted (fun a b => key b <= key a) (insert_by cmp x l).
  Proof.
    induction l as [|y t IH]; intros Px Pl Hs; simpl.
    - repeat constructor.
    - inversion Pl as [|? ? Py Pt]; subst. inversion Hs as [|? ? Ht Hy]; subst.
      rewrite (cmp_key x y Px Py). simpl.
      destruct (0 <? key y - key x) eqn:E.
      + apply Z.ltb_lt in E. constructor; [now apply IH|].
        apply (Permutation_Forall (Permutation_sym (insert_by_perm cmp x t))).
        constructor; [lia | exact Hy].
      + apply Z.ltb_ge in E. constructor; [now constructor|].
        constructor; [lia|].
        rewrite Forall_forall in *. intros z Hz. specialize (Hy z Hz).
        lia.
  Qed.

Lemma sort_by_sorted (l : list A) :
    Forall P l -> StronglySorted (fun a b => key b <= key a) (sort_by cmp l).
  Proof.
    induction l as [|x t IH]; intro Pl; simpl; [constructor|].
    inversion Pl; subst. apply insert_by_sorted; auto.
    apply (Permutation_Forall (Permutation_sym (sort_by_perm cmp t))). assumption.
  Qed.
End SortByKey.

Lemma history_pred_some `{D : JsDate} (f : Filters) (i : InvoiceWithSupplier.t) :
  first_row_date (InvoiceWithSupplier.rows i) <> None -> history_pred f i <> None.
Proof.
  intro H. unfold history_pred, date_filters.
  destruct (first_row_date (InvoiceWithSupplier.rows i)); [|congruence].
  repeat match goal with |- context [if ?c then _ else _] => destruct c end; discriminate.
Qed.

Lemma history_pred_true `{D : JsDate} (f : Filters) (i : InvoiceWithSupplier.t) :
  history_pred f i = Some true <->
  js_neq0 (InvoiceWithSupplier.balance i) = false
  /\ search_rejects f i = false
  /\ (onlyMerch f = true -> Supplier.is_merchandise (InvoiceWithSupplier.supplier i) = true)
  /\ date_filters f i = Some true.
Proof.
  unfold history_pred.
  destruct (js_neq0 _); [split; [discriminate | intuition discriminate]|].
  destruct (search_rejects f i); [split; [discriminate | intuition discriminate]|].
  destruct (onlyMerch f), (Supplier.is_merchandise _); simpl;
    split; intuition (try discriminate; auto).
Qed.

Lemma StronglySorted_weaken {A} (R R' : A -> A -> Prop) (l : list A) :
  (forall a b, In a l -> In b l -> R a b -> R' a b) ->
  StronglySorted R l -> StronglySorted R' l.
Proof.
  induction l as [|x t IH]; intros HR Hs; [constructor|].
  inversion Hs as [|? ? Ht Hx]; subst. constructor.
  - apply IH; [intros a b Ha Hb; apply HR; now right | exact Ht].
  - rewrite Forall_forall in *. intros b Hb. apply HR; [now left | now right | auto].
Qed.

(** C7. When every invoice's first row carries a date that [new Date] can
    read (the data model's non-empty rows with ISO dates), history mode
    returns exactly the invoices with [balance === 0] that pass every filter
    (search, merchandise only, month, year, date range), sorted by
    descending first-row date; its "total settled" is the sum of their
    initial amounts, 0 when there are none. *)
Theorem history_mode `{D : JsDate} (f : Filters) (enrichedInvoices : list InvoiceWithSupplier.t)
  (Hvalid : forall i, In i enrichedInvoices -> valid_time i) :
  exists res, historyInvoices f enrichedInvoices = Some res
  /\ (forall i, In i res <->
        In i enrichedInvoices
        /\ js_neq0 (InvoiceWithSupplier.balance i) = false
        /\ search_rejects f i = false
        /\ (onlyMerch f = true -> Supplier.is_merchandise (InvoiceWithSupplier.supplier i) = true)
        /\ date_filters f i = Some true)
  /\ StronglySorted (fun a b => exists ta tb, first_time a = JNum ta /\ first_time b = JNum tb
                                              /\ tb <= ta) res
  /\ totalSettled res = js_sum (map InvoiceWithSupplier.initialAmount res)
  /\ (res = [] -> totalSettled res = JNum 0).
Proof.
  destruct (filter_opt_total (history_pred f) enrichedInvoices) as [r [Er Hr]].
  { intros i Hi. apply history_pred_some. intro E.
    destruct (Hvalid i Hi) as [t Ht]. unfold first_time in Ht. rewrite E in Ht. discriminate. }
  exists (sort_by history_cmp r).
  assert (Hmem : forall i, In i (sort_by history_cmp r) <-> In i r).
  { intro i. split; apply Permutation_in;
      [apply sort_by_perm | apply Permutation_sym, sort_by_perm]. }
  split; [unfold historyInvoices; now rewrite Er|].
  split; [intro i; rewrite Hmem, Hr, history_pred_true; reflexivity|].
  split; [|split; [unfold totalSettled; rewrite fold_left_js_add; apply js_add_0_l
                 | intros ->; reflexivity]].
  assert (Hv : forall i, In i r -> valid_time i) by (intros i Hi; apply Hvalid, Hr, Hi).
  apply StronglySorted_weaken with (R := fun a b => time_key b <= time_key a).
  - intros a b Ha Hb Hab. apply Hmem, Hv in Ha. apply Hmem, Hv in Hb.
    destruct Ha as [ta Ea], Hb as [tb Eb]. exists ta, tb.
    unfold time_key in Hab. rewrite Ea, Eb in Hab. auto.
  - apply (sort_by_sorted history_cmp time_key valid_time).
    + intros a b [ta Ea] [tb Eb]. unfold history_cmp, time_key. now rewrite Ea, Eb.
    + now apply Forall_forall.
Qed.

Lemma history_mode_witness :
  (forall i, In i [Sample.enriched "X" Sample.supA [Sample.row_charge; Sample.row_payment] 0 100;
                   Sample.enriched "Z" Sample.supM [Sample.row_payment] 0 0] -> valid_time i)
  /\ exists res,
       historyInvoices {| search := "acme"; month := EmptyString; year := "2024"; dateFrom := EmptyString;
                          dateTo := EmptyString; onlyMerch := false |}
         [Sample.enriched "X" Sample.supA [Sample.row_charge; Sample.row_payment] 0 100;
          Sample.enriched "Z" Sample.supM [Sample.row_payment] 0 0] = Some res
       /\ In (Sample.enriched "X" Sample.supA [Sample.row_charge; Sample.row_payment] 0 100) res
       /\ ~ In (Sample.enriched "Z" Sample.supM [Sample.row_payment] 0 0) res.
Proof.
  assert (Hv : forall i, In i [Sample.enriched "X" Sample.supA [Sample.row_charge; Sample.row_payment] 0 100;
                   Sample.enriched "Z" Sample.supM [Sample.row_payment] 0 0] -> valid_time i).
  { intros i [<- | [<- | []]]; eexists; reflexivity. }
  split; [exact Hv|].
  destruct (history_mode {| search := "acme"; month := EmptyString; year := "2024"; dateFrom := EmptyString;
                            dateTo := EmptyString; onlyMerch := false |} _ Hv) as [res [E [Hm _]]].
  exists res. split; [exact E|]. split.
  - apply Hm. split; [now left|]. split; [reflexivity|]. split; [reflexivity|].
    split; [discriminate | vm_compute; reflexivity].
  - intro H. apply Hm in H. destruct H as (_ & _ & Hs & _). vm_compute in Hs. discriminate.
Defined.

(** ** The storage service *)

Lemma bind_ok {A B} (m : M A) (k : A -> M B) (e : env) (s s' : db) (a : A) :
  m e s = (Ok a, s') -> bind m k e s = k a e s'.
Proof. intro H. unfold bind. now rewrite H. Qed.

Lemma bind_throw {A B} (m : M A) (k : A -> M B) (e : env) (s s' : db) (x : string) :
  m e s = (Throw x, s') -> bind m k e s = (Throw x, s').
Proof. intro H. unfold bind. now rewrite H. Qed.

(** [importDatabase] turns every exception of its [try] block into [false]. *)
Lemma import_parsed_catch (parsed : option json) (e : env) (s : db) :
  import_parsed parsed e s =
    match import_body parsed e s with
    | (Ok b, s') => (Ok b, s')
    | (Throw _, s') => (Ok false, s')
    end.
Proof.
  unfold import_parsed, try_catch. now destruct (import_body parsed e s) as [[b|x] s'].
Qed.

(** ** C10: [importDatabase] never throws *)

(** C10. For every input string, whatever [JSON.parse] makes of it, the
    promise of [importDatabase] resolves to a boolean: every exception of its
    body is caught and becomes [false]. When the input does not parse, the
    result is [false] and the database is untouched. *)
Theorem importDatabase_total (json_parse : string -> option json) (jsonData : string)
  (e : env) (s : db) :
  (exists b s', importDatabase json_parse jsonData e s = (Ok b, s'))
  /\ (forall x s', import_body (json_parse jsonData) e s = (Throw x, s') ->
        importDatabase json_parse jsonData e s = (Ok false, s'))
  /\ (json_parse jsonData = None -> importDatabase json_parse jsonData e s = (Ok false, s)).
Proof.
  unfold importDatabase. rewrite import_parsed_catch.
  split; [|split].
  - destruct (import_body (json_parse jsonData) e s) as [[b|x] s']; eauto.
  - intros x s' H. now rewrite H.
  - intro Hp. rewrite Hp. unfold import_body, getUser, bind, ask, ret, throw.
    destruct (auth_user e); reflexivity.
Qed.

(** ** C4: a structurally invalid document changes nothing *)

(** C4. When the parsed document has no array under [suppliers] or under
    [invoices] (missing, another value, or the document is [null] or not an
    object), [importDatabase] resolves to [false] and the database is left
    exactly as it was: the check precedes the wipe. *)
Theorem import_rejects_invalid_document (json_parse : string -> option json)
  (jsonData : string) (data : json) (e : env) (s : db)
  (Hparse : json_parse jsonData = Some data)
  (Hbad : isArray (field_of data "suppliers") = false \/
          isArray (field_of data "invoices") = false) :
  importDatabase json_parse jsonData e s = (Ok false, s).
Proof.
  unfold importDatabase. rewrite import_parsed_catch, Hparse.
  unfold import_body, getUser, bind, ask, ret, throw.
  destruct (auth_user e) as [uid|]; [|reflexivity].
  destruct data as [| | | |l|fs]; simpl; try reflexivity.
  simpl in Hbad.
  destruct (assoc_last fs "suppliers") as [[| | | |sl|]|]; try reflexivity.
  destruct (assoc_last fs "invoices") as [[| | | |il|]|]; try reflexivity.
  simpl in Hbad. destruct Hbad; discriminate.
Qed.

Lemma import_rejects_invalid_document_witness :
  importDatabase (fun _ => Some (JsonObj [("suppliers", JsonArr [])])) "backup.json"
    Sample.env_ok Sample.db_one = (Ok false, Sample.db_one).
Proof.
  apply (import_rejects_invalid_document _ _ (JsonObj [("suppliers", JsonArr [])])).
  - reflexivity.
  - right. reflexivity.
Defined.

(** ** C8: failures of the reads and of the deletes are not reported *)

(** C8 (counterexample). A [getSuppliers] whose request fails on a database
    holding a supplier returns the same value as a successful [getSuppliers]
    on an empty database; the same holds for [getInvoices]. *)
Lemma failed_fetch_looks_empty :
  fst (getSuppliers (Sample.env_failing CSelectSuppliers) Sample.db_one)
    = fst (getSuppliers Sample.env_ok Sample.db_empty)
  /\ fst (getInvoices (Sample.env_failing CSelectInvoices) Sample.db_one)
    = fst (getInvoices Sample.env_ok Sample.db_empty)
  /\ db_suppliers Sample.db_one <> []
  /\ db_invoices Sample.db_one <> [].
Proof. repeat split; discriminate. Qed.

(** C8 (amended). A failed [getSuppliers] or [getInvoices] resolves to the
    empty list, exactly what a successful fetch of an empty table resolves
    to (the error is only logged), and [deleteSupplier] resolves to
    [undefined] whether its request failed or not. *)
Theorem gateway_failures_not_reported (e : env) (s : db) (id : string) :
  (fails e CSelectSuppliers = true -> getSuppliers e s = (Ok [], s))
  /\ (fails e CSelectInvoices = true -> getInvoices e s = (Ok [], s))
  /\ (fails e CSelectSuppliers = false -> db_suppliers s = [] -> getSuppliers e s = (Ok [], s))
  /\ (fails e CSelectInvoices = false -> db_invoices s = [] -> getInvoices e s = (Ok [], s))
  /\ fst (deleteSupplier id e s) = Ok tt.
Proof.
  unfold getSuppliers, getInvoices, deleteSupplier, sb_select_suppliers,
    sb_select_invoices, sb_delete_supplier, request, bind, ask, ret, gets, modify.
  repeat split.
  - intro H. now rewrite H.
  - intro H. now rewrite H.
  - intros H E. rewrite H, E. reflexivity.
  - intros H E. rewrite H, E. reflexivity.
  - now destruct (fails e CDeleteSupplier).
Qed.

(** ** C5: deleting a supplier cascades to its invoices *)

(** C5 (counterexample). When the delete request fails, [deleteSupplier]
    still resolves normally, and a later [getInvoices] returns the invoice
    that references the supplier. *)
Lemma failed_delete_keeps_invoices :
  fst (deleteSupplier "A" (Sample.env_failing CDeleteSupplier) Sample.db_one) = Ok tt
  /\ fst (getInvoices Sample.env_ok
            (snd (deleteSupplier "A" (Sample.env_failing CDeleteSupplier) Sample.db_one)))
     = Ok [Sample.invX]
  /\ Invoice.supplier_id Sample.invX = "A".
Proof. repeat split. Qed.

Lemma deleteSupplier_state (id : string) (e : env) (s : db) :
  deleteSupplier id e s =
    (Ok tt, if fails e CDeleteSupplier then s
            else delete_suppliers_cascade (supplier_has_id id) s).
Proof.
  unfold deleteSupplier, sb_delete_supplier, request, bind, ask, ret, modify.
  now destruct (fails e CDeleteSupplier).
Qed.

(** C5 (amended). On a database whose invoices all reference stored
    suppliers (the schema's foreign key), when the delete request succeeds,
    the supplier is gone and no invoice a later [getInvoices] returns has
    [supplier_id = id]; when the request fails, [deleteSupplier] still
    resolves normally and the database is unchanged. *)
Theorem deleteSupplier_cascades (id : string) (e e' : env) (s : db) (Hfk : fk_ok s) :
  (fails e CDeleteSupplier = false ->
     ~ In id (map Supplier.id (db_suppliers (snd (deleteSupplier id e s))))
     /\ forall invs, fst (getInvoices e' (snd (deleteSupplier id e s))) = Ok invs ->
                     forall i, In i invs -> Invoice.supplier_id i <> id)
  /\ (fails e CDeleteSupplier = true -> deleteSupplier id e s = (Ok tt, s)).
Proof.
  rewrite deleteSupplier_state. split; intro Hf; rewrite Hf; [|reflexivity].
  simpl. split.
  - rewrite in_map_iff. intros [x [Ex Hx]]. apply filter_In in Hx.
    destruct Hx as [_ Hx]. unfold supplier_has_id in Hx.
    rewrite Ex, String.eqb_refl in Hx. discriminate.
  - intros invs Hget i Hi Ei.
    unfold getInvoices, sb_select_invoices, request, bind, ask, ret, gets in Hget.
    destruct (fails e' CSelectInvoices); simpl in Hget; injection Hget as <-; [contradiction|].
    apply filter_In in Hi. destruct Hi as [Hi Hkeep].
    apply Hfk in Hi. rewrite in_map_iff in Hi. destruct Hi as [x [Ex Hx]].
    assert (Hg : existsb (String.eqb (Invoice.supplier_id i))
                   (map Supplier.id (filter (supplier_has_id id) (db_suppliers s))) = true).
    { apply existsb_exists. exists (Supplier.id x). split.
      - apply in_map, filter_In. split; [exact Hx|].
        unfold supplier_has_id. now rewrite Ex, Ei, String.eqb_refl.
      - now rewrite Ex, String.eqb_refl. }
    rewrite Hg in Hkeep. discriminate.
Qed.

Lemma deleteSupplier_cascades_witness :
  fk_ok Sample.db_one
  /\ ~ In "A" (map Supplier.id (db_suppliers (snd (deleteSupplier "A" Sample.env_ok Sample.db_one)))).
Proof.
  assert (Hfk : fk_ok Sample.db_one).
  { intros i [<- | []]. simpl. now left. }
  split; [exact Hfk|].
  exact (proj1 (proj1 (deleteSupplier_cascades "A" Sample.env_ok Sample.env_ok
                         Sample.db_one Hfk) eq_refl)).
Defined.

(** ** C3: export followed by import *)

Lemma nodupb_NoDup (l : list string) : NoDup l -> nodupb l = true.
Proof.
  induction l as [|x t IH]; intro H; simpl; [reflexivity|].
  inversion H as [|? ? Hx Ht]; subst. rewrite IH by exact Ht.
  destruct (existsb (String.eqb x) t) eqn:E; [|reflexivity].
  apply existsb_exists in E. destruct E as [y [Hy Exy]].
  apply String.eqb_eq in Exy. subst. contradiction.
Qed.

Lemma assoc_last_user_id (fs : list (string * json)) (k uid : string) :
  String.eqb "user_id" k = false ->
  assoc_last (fs ++ [("user_id", JsonStr uid)]) k = assoc_last fs k.
Proof.
  intro Hk. induction fs as [|[k' v] t IH]; cbn [app assoc_last].
  - now rewrite Hk.
  - now rewrite IH.
Qed.

Lemma row_roundtrip (r : InvoiceRow.t) : json_to_row (row_to_json r) = Some r.
Proof. destruct r as [a b c d cr db]; destruct cr, db; reflexivity. Qed.

Lemma map_opt_roundtrip {A} (dec : json -> option A) (enc : A -> json) (l : list A) :
  (forall x, dec (enc x) = Some x) -> map_opt dec (map enc l) = Some l.
Proof. intro H. induction l as [|x t IH]; simpl; [reflexivity|]. now rewrite H, IH. Qed.

Lemma rows_roundtrip (l : list InvoiceRow.t) : map_opt json_to_row (map row_to_json l) = Some l.
Proof. exact (map_opt_roundtrip json_to_row row_to_json l row_roundtrip). Qed.

Lemma supplier_roundtrip (uid : string) (x : Supplier.t) :
  json_to_supplier (with_user_id uid (supplier_to_json x)) = Some x.
Proof. destruct x; reflexivity. Qed.

Lemma invoice_roundtrip (uid : string) (i : Invoice.t) :
  json_to_invoice (with_user_id uid (invoice_to_json i)) = Some i.
Proof.
  destruct i as [a b c rv]. unfold with_user_id, invoice_to_json, json_to_invoice.
  unfold get_str. rewrite !assoc_last_user_id by reflexivity.
  destruct rv as [l|v]; simpl.
  - now rewrite rows_roundtrip.
  - destruct v; reflexivity.
Qed.

Lemma fails_none (e : env) (c : call) : (forall c, fails e c = false) -> fails e c = false.
Proof. auto. Qed.

Lemma filter_nil_of_false {A} (p : A -> bool) (l : list A) :
  (forall x, In x l -> p x = false) -> filter p l = [].
Proof.
  induction l as [|x t IH]; intro H; simpl; [reflexivity|].
  rewrite (H x (or_introl eq_refl)). apply IH. intros y Hy. apply H. now right.
Qed.

(** The wipe of [importDatabase] empties both tables when no supplier has
    the excluded id. *)
Lemma deleteAllSuppliers_wipes (e : env) (s : db)
  (Hok : forall c, fails e c = false) (Hfk : fk_ok s)
  (Hnil : ~ In nil_uuid (map Supplier.id (db_suppliers s))) :
  deleteAllSuppliers e s = (Ok tt, mkDb [] []).
Proof.
  unfold deleteAllSuppliers, sb_delete_invoices_neq, sb_delete_suppliers_neq, request,
    bind, ask, ret, modify.
  rewrite !Hok. simpl. unfold delete_suppliers_cascade. simpl. f_equal. f_equal.
  - apply filter_nil_of_false. intros x Hx.
    unfold supplier_has_id. rewrite negb_involutive.
    destruct (String.eqb (Supplier.id x) nil_uuid) eqn:E; [|reflexivity].
    apply String.eqb_eq in E. exfalso. apply Hnil. rewrite <- E. now apply in_map.
  - apply filter_nil_of_false. intros i Hi.
    apply filter_In in Hi. destruct Hi as [Hi _].
    apply Hfk in Hi. rewrite in_map_iff in Hi. destruct Hi as [x [Ex Hx]].
    apply negb_false_iff, existsb_exists. exists (Supplier.id x). split.
    + apply in_map, filter_In. split; [exact Hx|].
      unfold supplier_has_id. destruct (String.eqb (Supplier.id x) nil_uuid) eqn:E;
        [|reflexivity].
      apply String.eqb_eq in E. exfalso. apply Hnil. rewrite <- E. now apply in_map.
    + now rewrite Ex, String.eqb_refl.
Qed.

Lemma insert_by_name_perm (x : Supplier.t) (l : list Supplier.t) :
  Permutation (insert_by_name x l) (x :: l).
Proof.
  induction l as [|y t IH]; simpl; [reflexivity|].
  destruct (String.leb (Supplier.name x) (Supplier.name y)); [reflexivity|].
  rewrite IH. apply perm_swap.
Qed.

Lemma sort_by_name_perm (l : list Supplier.t) : Permutation (sort_by_name l) l.
Proof.
  induction l as [|x t IH]; simpl; [reflexivity|].
  rewrite insert_by_name_perm. now apply perm_skip.
Qed.

Lemma exportDatabase_run (e : env) (s : db) :
  exportDatabase e s =
    (Ok (export_doc (if fails e CSelectSuppliers then [] else sort_by_name (db_suppliers s))
                    (if fails e CSelectInvoices then [] else db_invoices s) (now e)), s).
Proof.
  unfold exportDatabase, getSuppliers, getInvoices, sb_select_suppliers,
    sb_select_invoices, request, bind, ask, ret, gets.
  now destruct (fails e CSelectSuppliers), (fails e CSelectInvoices).
Qed.

Lemma insert_suppliers_step (e : env) (uid : string) (ss : list Supplier.t)
  (Hok : forall c, fails e c = false) (Hnd : NoDup (map Supplier.id ss)) :
  (if (0 <? List.length (map (with_user_id uid) (map supplier_to_json ss)))%nat then
     bind (sb_insert_suppliers (map (with_user_id uid) (map supplier_to_json ss)))
          (fun r => match r with RError => throw "supError" | RData _ => ret tt end)
   else ret tt) e (mkDb [] []) = (Ok tt, mkDb ss []).
Proof.
  destruct ss as [|x t]; [reflexivity|].
  replace ((0 <? List.length (map (with_user_id uid) (map supplier_to_json (x :: t))))%nat)
    with true by reflexivity.
  unfold sb_insert_suppliers, bind, ask, gets, modify, ret. cbv beta iota.
  rewrite Hok.
  rewrite map_map, (map_opt_roundtrip json_to_supplier) by apply supplier_roundtrip.
  rewrite nodupb_NoDup by exact Hnd. reflexivity.
Qed.

Lemma insert_invoices_step (e : env) (uid : string) (ss : list Supplier.t)
  (is : list Invoice.t)
  (Hok : forall c, fails e c = false) (Hnd : NoDup (map Invoice.id is))
  (Hfk : fk_ok (mkDb ss is)) :
  (if (0 <? List.length (map (with_user_id uid) (map invoice_to_json is)))%nat then
     bind (sb_insert_invoices (map (with_user_id uid) (map invoice_to_json is)))
          (fun r => match r with RError => throw "invError" | RData _ => ret tt end)
   else ret tt) e (mkDb ss []) = (Ok tt, mkDb ss is).
Proof.
  destruct is as [|x t]; [reflexivity|].
  replace ((0 <? List.length (map (with_user_id uid) (map invoice_to_json (x :: t))))%nat)
    with true by reflexivity.
  unfold sb_insert_invoices, bind, ask, gets, modify, ret. cbv beta iota.
  rewrite Hok.
  rewrite map_map, (map_opt_roundtrip json_to_invoice) by apply invoice_roundtrip.
  cbn [db_invoices db_suppliers app].
  rewrite nodupb_NoDup by exact Hnd.
  replace (forallb _ (x :: t)) with true; [reflexivity|].
  symmetry. apply forallb_forall. intros i Hi. apply existsb_exists.
  exists (Invoice.supplier_id i). split; [exact (Hfk i Hi) | apply String.eqb_refl].
Qed.

(** C3 (counterexample). A database with supplier A and its invoice X: the
    export runs while the invoice read fails, so the backup holds no
    invoices; importing that backup succeeds and leaves the invoice table
    empty. *)
Lemma roundtrip_after_failed_read_drops_invoices :
  exportDatabase (Sample.env_failing CSelectInvoices) Sample.db_one
    = (Ok (export_doc [Sample.supA] [] (now Sample.env_ok)), Sample.db_one)
  /\ import_parsed (Some (export_doc [Sample.supA] [] (now Sample.env_ok)))
       Sample.env_ok Sample.db_one = (Ok true, mkDb [Sample.supA] [])
  /\ db_invoices Sample.db_one <> [].
Proof. split; [reflexivity | split; [vm_compute; reflexivity | discriminate]]. Qed.

Ltac run_step H := rewrite (bind_ok _ _ _ _ _ _ H); cbv beta iota zeta.

(** Importing a document of the shape [exportDatabase] writes, with the wipe
    and both inserts succeeding. *)
Lemma import_exported_doc (e : env) (s : db) (uid : string)
  (ss : list Supplier.t) (is : list Invoice.t) (t : string)
  (Hok : forall c, fails e c = false) (Huser : auth_user e = Some uid)
  (Hfk : fk_ok s) (Hnil : ~ In nil_uuid (map Supplier.id (db_suppliers s)))
  (Hss : NoDup (map Supplier.id ss)) (His : NoDup (map Invoice.id is))
  (Hfk' : fk_ok (mkDb ss is)) :
  import_body (Some (export_doc ss is t)) e s = (Ok true, mkDb ss is).
Proof.
  unfold import_body.
  assert (Hu : getUser e s = (Ok (Some uid), s)) by (unfold getUser, bind, ask, ret; now rewrite Huser).
  run_step Hu.
  assert (Hd : @ret json (export_doc ss is t) e s = (Ok (export_doc ss is t), s)) by reflexivity.
  run_step Hd.
  assert (Hs : get_prop (export_doc ss is t) "suppliers" e s =
               (Ok (Some (JsonArr (map supplier_to_json ss))), s)) by reflexivity.
  run_step Hs.
  assert (Hi : get_prop (export_doc ss is t) "invoices" e s =
               (Ok (Some (JsonArr (map invoice_to_json is))), s)) by reflexivity.
  run_step Hi.
  run_step (deleteAllSuppliers_wipes e s Hok Hfk Hnil).
  run_step (insert_suppliers_step e uid ss Hok Hss).
  run_step (insert_invoices_step e uid ss is Hok His Hfk').
  reflexivity.
Qed.

(** Importing a document whose supplier list is empty: after the wipe, every
    invoice to insert names a supplier that is no longer stored. *)
Lemma import_exported_no_suppliers (e : env) (s : db) (uid : string)
  (is : list Invoice.t) (t : string)
  (Hok : forall c, fails e c = false) (Huser : auth_user e = Some uid)
  (Hfk : fk_ok s) (Hnil : ~ In nil_uuid (map Supplier.id (db_suppliers s))) :
  import_body (Some (export_doc [] is t)) e s =
    match is with
    | [] => (Ok true, mkDb [] [])
    | _ :: _ => (Throw "invError", mkDb [] [])
    end.
Proof.
  unfold import_body.
  assert (Hu : getUser e s = (Ok (Some uid), s)) by (unfold getUser, bind, ask, ret; now rewrite Huser).
  run_step Hu.
  assert (Hd : @ret json (export_doc [] is t) e s = (Ok (export_doc [] is t), s)) by reflexivity.
  run_step Hd.
  assert (Hs : get_prop (export_doc [] is t) "suppliers" e s =
               (Ok (Some (JsonArr (map supplier_to_json []))), s)) by reflexivity.
  run_step Hs.
  assert (Hi : get_prop (export_doc [] is t) "invoices" e s =
               (Ok (Some (JsonArr (map invoice_to_json is))), s)) by reflexivity.
  run_step Hi.
  run_step (deleteAllSuppliers_wipes e s Hok Hfk Hnil).
  run_step (insert_suppliers_step e uid [] Hok (NoDup_nil _)).
  destruct is as [|x t'] eqn:Eis; [reflexivity|].
  replace ((0 <? List.length (map (with_user_id uid) (map invoice_to_json (x :: t'))))%nat)
    with true by reflexivity.
  unfold sb_insert_invoices, bind, ask, gets, modify, ret, throw. cbv beta iota.
  rewrite Hok.
  rewrite map_map, (map_opt_roundtrip json_to_invoice) by apply invoice_roundtrip.
  cbn [db_invoices db_suppliers app map forallb existsb].
  rewrite andb_false_r. reflexivity.
Qed.

(** C3 (amended). The export reads the supplier table (sorted by name) and
    the invoice table; a read that fails is exported as an empty list. The
    import runs with every request succeeding and the user logged in, over a
    database that satisfies its keys (unique ids, every invoice naming a
    stored supplier) and has no supplier with the id the wipe excludes
    ([nil_uuid]). Then:
    - when both reads succeeded, the import resolves to [true] and leaves
      exactly the suppliers and invoices that were there before (up to
      order): same ids, same fields, same [supplier_id] references;
    - when only the invoice read failed, the import resolves to [true] and
      leaves the suppliers with no invoice at all;
    - when the supplier read failed, the import wipes both tables and
      resolves to [false] if there were invoices to insert (they name no
      stored supplier), to [true] otherwise.
    [JSON.stringify] followed by [JSON.parse] gives the document back
    unchanged: it holds strings, booleans, integers, arrays and objects
    only. *)
Theorem export_import_roundtrip (e1 e2 : env) (s : db) (uid : string)
  (Hok2 : forall c, fails e2 c = false)
  (Huser : auth_user e2 = Some uid)
  (Hsup : NoDup (map Supplier.id (db_suppliers s)))
  (Hinv : NoDup (map Invoice.id (db_invoices s)))
  (Hfk : fk_ok s)
  (Hnil : ~ In nil_uuid (map Supplier.id (db_suppliers s))) :
  exportDatabase e1 s =
    (Ok (export_doc (if fails e1 CSelectSuppliers then [] else sort_by_name (db_suppliers s))
                    (if fails e1 CSelectInvoices then [] else db_invoices s) (now e1)), s)
  /\ (fails e1 CSelectSuppliers = false -> fails e1 CSelectInvoices = false ->
      exists s',
        import_parsed (Some (export_doc (sort_by_name (db_suppliers s)) (db_invoices s)
                                        (now e1))) e2 s = (Ok true, s')
        /\ Permutation (db_suppliers s') (db_suppliers s)
        /\ Permutation (db_invoices s') (db_invoices s))
  /\ (fails e1 CSelectSuppliers = false -> fails e1 CSelectInvoices = true ->
      exists s',
        import_parsed (Some (export_doc (sort_by_name (db_suppliers s)) [] (now e1))) e2 s
          = (Ok true, s')
        /\ Permutation (db_suppliers s') (db_suppliers s)
        /\ db_invoices s' = [])
  /\ (fails e1 CSelectSuppliers = true ->
      import_parsed (Some (export_doc [] (if fails e1 CSelectInvoices then [] else db_invoices s)
                                      (now e1))) e2 s
        = (Ok (match (if fails e1 CSelectInvoices then [] else db_invoices s) with
               | [] => true
               | _ :: _ => false
               end), mkDb [] [])).
Proof.
  set (sorted := sort_by_name (db_suppliers s)).
  assert (Hsorted : NoDup (map Supplier.id sorted)).
  { apply (Permutation_NoDup (Permutation_map Supplier.id
                                (Permutation_sym (sort_by_name_perm (db_suppliers s))))).
    exact Hsup. }
  split; [apply exportDatabase_run|].
  split; [|split].
  - intros _ _. exists (mkDb sorted (db_invoices s)).
    split; [|split; [apply sort_by_name_perm | reflexivity]].
    assert (Hfk' : fk_ok (mkDb sorted (db_invoices s))).
    { intros i Hi. apply (Permutation_in _ (Permutation_map Supplier.id
                                  (Permutation_sym (sort_by_name_perm (db_suppliers s))))).
      now apply Hfk. }
    rewrite import_parsed_catch.
    now rewrite (import_exported_doc e2 s uid sorted (db_invoices s) (now e1)
                   Hok2 Huser Hfk Hnil Hsorted Hinv Hfk').
  - intros _ _. exists (mkDb sorted []).
    split; [|split; [apply sort_by_name_perm | reflexivity]].
    assert (Hfk' : fk_ok (mkDb sorted [])) by (intros i []).
    rewrite import_parsed_catch.
    now rewrite (import_exported_doc e2 s uid sorted [] (now e1)
                   Hok2 Huser Hfk Hnil Hsorted (NoDup_nil _) Hfk').
  - intros _. rewrite import_parsed_catch.
    rewrite (import_exported_no_suppliers e2 s uid _ (now e1) Hok2 Huser Hfk Hnil).
    now destruct (if fails e1 CSelectInvoices then [] else db_invoices s).
Qed.

Lemma export_import_roundtrip_witness :
  exportDatabase Sample.env_ok Sample.db_one =
    (Ok (export_doc (if fails Sample.env_ok CSelectSuppliers then []
                     else sort_by_name (db_suppliers Sample.db_one))
                    (if fails Sample.env_ok CSelectInvoices then []
                     else db_invoices Sample.db_one) (now Sample.env_ok)), Sample.db_one)
  /\ (fails Sample.env_ok CSelectSuppliers = false -> fails Sample.env_ok CSelectInvoices = false ->
      exists s',
        import_parsed (Some (export_doc (sort_by_name (db_suppliers Sample.db_one))
                                        (db_invoices Sample.db_one) (now Sample.env_ok)))
                      Sample.env_ok Sample.db_one = (Ok true, s')
        /\ Permutation (db_suppliers s') (db_suppliers Sample.db_one)
        /\ Permutation (db_invoices s') (db_invoices Sample.db_one))
  /\ (fails Sample.env_ok CSelectSuppliers = false -> fails Sample.env_ok CSelectInvoices = true ->
      exists s',
        import_parsed (Some (export_doc (sort_by_name (db_suppliers Sample.db_one)) []
                                        (now Sample.env_ok))) Sample.env_ok Sample.db_one
          = (Ok true, s')
        /\ Permutation (db_suppliers s') (db_suppliers Sample.db_one)
        /\ db_invoices s' = [])
  /\ (fails Sample.env_ok CSelectSuppliers = true ->
      import_parsed (Some (export_doc [] (if fails Sample.env_ok CSelectInvoices then []
                                          else db_invoices Sample.db_one)
                                      (now Sample.env_ok))) Sample.env_ok Sample.db_one
        = (Ok (match (if fails Sample.env_ok CSelectInvoices then []
                      else db_invoices Sample.db_one) with
               | [] => true
               | _ :: _ => false
               end), mkDb [] [])).
Proof.
  apply (export_import_roundtrip Sample.env_ok Sample.env_ok Sample.db_one "user-1").
  - reflexivity.
  - reflexivity.
  - simpl. repeat constructor; simpl; tauto.
  - simpl. repeat constructor; simpl; tauto.
  - intros i [<- | []]. simpl. now left.
  - simpl. intros [H | []]. discriminate.
Defined.

(** * Properties of the editing screens, the enrichment and the tabs *)

(** ** The row editor *)

(** [addRow] never changes the total the editor shows: the new row has
    credit 0 and debit 0. *)
Theorem addRow_keeps_total (uuid today : string) (rows : list InvoiceRow.t) :
  calculateTotal (addRow uuid today rows) = calculateTotal rows.
Proof.
  unfold calculateTotal, addRow. rewrite fold_left_app. simpl. apply js_add_0_r.
Qed.

Lemma existsb_false_iff {A} (p : A -> bool) (l : list A) :
  existsb p l = false <-> forall x, In x l -> p x = false.
Proof.
  split.
  - intros H x Hx. destruct (p x) eqn:E; [|reflexivity].
    assert (existsb p l = true) by (apply existsb_exists; eauto). congruence.
  - intro H. destruct (existsb p l) eqn:E; [|reflexivity].
    apply existsb_exists in E. destruct E as [x [Hx Hp]]. now rewrite H in Hp.
Qed.

Lemma filter_unique_length {A} (f : A -> string) (k : string) (l : list A) :
  NoDup (map f l) ->
  (List.length (filter (fun r => negb (String.eqb (f r) k)) l) +
   (if existsb (fun r => String.eqb (f r) k) l then 1 else 0))%nat = List.length l.
Proof.
  induction l as [|x t IH]; intro Hnd; simpl; [reflexivity|].
  inversion Hnd as [|? ? Hx Ht]; subst.
  destruct (String.eqb (f x) k) eqn:E; simpl.
  - apply String.eqb_eq in E. subst k.
    assert (Hall : forall y, In y t -> String.eqb (f y) (f x) = false).
    { intros y Hy. apply String.eqb_neq. intro Heq. apply Hx. rewrite <- Heq.
      now apply in_map. }
    rewrite (filter_ext_in _ (fun _ => true)), filter_true.
    + lia.
    + intros y Hy. now rewrite Hall.
  - specialize (IH Ht). lia.
Qed.

(** [removeRow] never leaves the editor without rows when row ids are
    distinct (as [crypto.randomUUID()] makes them): with one row it does
    nothing, and with more it removes exactly the row with that id. *)
Theorem removeRow_keeps_a_row (id : string) (rows : list InvoiceRow.t)
  (Hnd : NoDup (map InvoiceRow.id rows)) (Hne : rows <> []) :
  removeRow id rows <> [] /\
  (In id (map InvoiceRow.id rows) -> (1 < List.length rows)%nat ->
   List.length (removeRow id rows) = (List.length rows - 1)%nat /\
   ~ In id (map InvoiceRow.id (removeRow id rows))).
Proof.
  pose proof (filter_unique_length InvoiceRow.id id rows Hnd) as Hlen.
  unfold removeRow. destruct (1 <? List.length rows)%nat eqn:E.
  - apply Nat.ltb_lt in E. split.
    + intro H. rewrite H in Hlen. simpl in Hlen.
      destruct (existsb _ rows); lia.
    + intros Hin _. split.
      * assert (existsb (fun r => String.eqb (InvoiceRow.id r) id) rows = true) as Ex.
        { apply existsb_exists. apply in_map_iff in Hin. destruct Hin as [r [Er Hr]].
          exists r. split; [exact Hr|]. now apply String.eqb_eq. }
        rewrite Ex in Hlen. lia.
      * intro Hin'. apply in_map_iff in Hin'. destruct Hin' as [r [Er Hr]].
        apply filter_In in Hr. destruct Hr as [_ Hr].
        rewrite Er, String.eqb_refl in Hr. discriminate.
  - apply Nat.ltb_ge in E. split; [exact Hne|].
    intros _ H. lia.
Qed.

(** ** Saving invoices and suppliers *)

Lemma assoc_last_app (l1 l2 : list (string * json)) (k : string) :
  assoc_last (l1 ++ l2) k =
    match assoc_last l2 k with Some v => Some v | None => assoc_last l1 k end.
Proof.
  induction l1 as [|[k' v] t IH]; cbn [app assoc_last].
  - now destruct (assoc_last l2 k).
  - rewrite IH. now destruct (assoc_last l2 k).
Qed.

Lemma assoc_last_drop_key (l : list (string * json)) (k k' : string) :
  k <> k' ->
  assoc_last (filter (fun kv => negb (String.eqb (fst kv) k')) l) k = assoc_last l k.
Proof.
  intro Hk. induction l as [|[k0 v] t IH]; simpl; [reflexivity|].
  destruct (String.eqb k0 k') eqn:E; simpl.
  - apply String.eqb_eq in E. subst k0. rewrite IH.
    destruct (assoc_last t k); [reflexivity|].
    replace (String.eqb k' k) with false; [reflexivity|].
    symmetry. apply String.eqb_neq. congruence.
  - now rewrite IH.
Qed.

(** Keys other than [id], [user_id] and [creation_date] reach the database
    as the caller gave them. *)
Lemma payload_other_key (uid nowIso : string) (fs : list (string * json)) (k : string) :
  k <> "id" -> k <> "user_id" -> k <> "creation_date" ->
  assoc_last (saveInvoice_payload uid nowIso fs) k = assoc_last fs k.
Proof.
  intros H1 H2 H3. unfold saveInvoice_payload.
  assert (Htail : forall v1 v2,
             assoc_last [("user_id", v1); ("creation_date", v2)] k = None).
  { intros v1 v2. cbn [assoc_last].
    replace (String.eqb "creation_date" k) with false
      by (symmetry; apply String.eqb_neq; congruence).
    replace (String.eqb "user_id" k) with false
      by (symmetry; apply String.eqb_neq; congruence).
    reflexivity. }
  destruct (json_truthy _); [|rewrite assoc_last_drop_key by exact H1];
    rewrite assoc_last_app, Htail; reflexivity.
Qed.

Lemma map_opt_Forall2 {A B} (f : A -> option B) (l : list A) (r : list B) :
  map_opt f l = Some r -> Forall2 (fun a b => f a = Some b) l r.
Proof.
  revert r. induction l as [|x t IH]; intros r H; simpl in H.
  - injection H as <-. constructor.
  - destruct (f x) eqn:Ex; [|discriminate].
    destruct (map_opt f t) eqn:Et; [|discriminate].
    injection H as <-. constructor; [exact Ex | now apply IH].
Qed.

Lemma json_to_invoice_fields (fs : list (string * json)) (x : Invoice.t) :
  json_to_invoice (JsonObj fs) = Some x ->
  get_str fs "id" = Some (Invoice.id x) /\
  get_str fs "supplier_id" = Some (Invoice.supplier_id x) /\
  get_str fs "creation_date" = Some (Invoice.creation_date x) /\
  json_to_rows (assoc_last fs "rows") = Some (Invoice.rows x).
Proof.
  simpl. destruct (get_str fs "id"), (get_str fs "supplier_id"),
    (get_str fs "creation_date"), (json_to_rows (assoc_last fs "rows"));
    try discriminate.
  intro H. injection H as <-. auto.
Qed.

Lemma assoc_last_drop_self (l : list (string * json)) (k : string) :
  assoc_last (filter (fun kv => negb (String.eqb (fst kv) k)) l) k = None.
Proof.
  induction l as [|[k0 v] t IH]; simpl; [reflexivity|].
  destruct (String.eqb k0 k) eqn:E; simpl; [exact IH|]. now rewrite IH, E.
Qed.

Lemma payload_tail (uid : string) (cd : json) (k : string) :
  k <> "user_id" -> k <> "creation_date" ->
  assoc_last [("user_id", JsonStr uid); ("creation_date", cd)] k = None.
Proof.
  intros H2 H3. cbn [assoc_last].
  replace (String.eqb "creation_date" k) with false
    by (symmetry; apply String.eqb_neq; congruence).
  replace (String.eqb "user_id" k) with false
    by (symmetry; apply String.eqb_neq; congruence).
  reflexivity.
Qed.

Lemma payload_id (uid nowIso : string) (fs : list (string * json)) :
  assoc_last (saveInvoice_payload uid nowIso fs) "id" =
    if json_truthy (assoc_last fs "id") then assoc_last fs "id" else None.
Proof.
  unfold saveInvoice_payload. cbv zeta.
  rewrite assoc_last_app, payload_tail by discriminate.
  destruct (json_truthy (assoc_last fs "id")).
  - rewrite assoc_last_app, payload_tail by discriminate. reflexivity.
  - apply assoc_last_drop_self.
Qed.

Lemma payload_user_id (uid nowIso : string) (fs : list (string * json)) :
  assoc_last (saveInvoice_payload uid nowIso fs) "user_id" = Some (JsonStr uid).
Proof.
  unfold saveInvoice_payload. cbv zeta.
  destruct (json_truthy _); [|rewrite assoc_last_drop_key by discriminate];
    rewrite assoc_last_app; reflexivity.
Qed.

Lemma payload_creation_date (uid nowIso : string) (fs : list (string * json)) :
  assoc_last (saveInvoice_payload uid nowIso fs) "creation_date" =
    Some (json_or (assoc_last fs "creation_date") (JsonStr nowIso)).
Proof.
  unfold saveInvoice_payload. cbv zeta.
  destruct (json_truthy _); [|rewrite assoc_last_drop_key by discriminate];
    rewrite assoc_last_app; reflexivity.
Qed.

(** The record [saveInvoice] sends: [user_id] is always the logged-in
    user's id, even when the given invoice carries another one;
    [creation_date] is the given one when it is truthy and the current time
    otherwise; [id] is the given one when it is truthy and absent otherwise
    (so that the database generates it); every other field is the given
    one. *)
Theorem saveInvoice_payload_fields (uid nowIso : string) (invoice : list (string * json)) :
  assoc_last (saveInvoice_payload uid nowIso invoice) "user_id" = Some (JsonStr uid) /\
  assoc_last (saveInvoice_payload uid nowIso invoice) "creation_date" =
    Some (json_or (assoc_last invoice "creation_date") (JsonStr nowIso)) /\
  assoc_last (saveInvoice_payload uid nowIso invoice) "id" =
    (if json_truthy (assoc_last invoice "id") then assoc_last invoice "id" else None) /\
  (forall k, k <> "id" -> k <> "user_id" -> k <> "creation_date" ->
   assoc_last (saveInvoice_payload uid nowIso invoice) k = assoc_last invoice k).
Proof.
  split; [apply payload_user_id|]. split; [apply payload_creation_date|].
  split; [apply payload_id|]. intros k H1 H2 H3. now apply payload_other_key.
Qed.

(** What a successful [saveInvoice] stored: the decoded record, and the
    update or insert of the upsert. *)
Lemma saveInvoice_ok (sv : server) (e : env) (s s' : db) (fs : list (string * json))
  (x : Invoice.t) :
  saveInvoice sv fs e s = (Ok (Some x), s') ->
  exists uid,
    auth_user e = Some uid /\
    json_to_invoice (JsonObj (("id", JsonStr (fresh_id sv)) ::
                              saveInvoice_payload uid (now e) fs)) = Some x /\
    In (Invoice.supplier_id x) (map Supplier.id (db_suppliers s)) /\
    s' = (if existsb (fun y => String.eqb (Invoice.id y) (Invoice.id x)) (db_invoices s)
          then mkDb (db_suppliers s) (replace_invoice x (db_invoices s))
          else mkDb (db_suppliers s) (db_invoices s ++ [x])).
Proof.
  unfold saveInvoice, getUser, bind, ask, ret.
  destruct (auth_user e) as [uid|]; [|discriminate].
  unfold sb_upsert_invoice, bind, gets, modify, ret.
  destruct (write_fails sv CUpsertInvoice); [discriminate|].
  destruct (json_to_invoice _) as [y|] eqn:Ej; [|discriminate].
  destruct (existsb (String.eqb (Invoice.supplier_id y)) _) eqn:Efk; [|discriminate].
  intro H. exists uid. split; [reflexivity|].
  unfold id in H.
  assert (Hin : In (Invoice.supplier_id y) (map Supplier.id (db_suppliers s))).
  { apply existsb_exists in Efk. destruct Efk as [k [Hk Ek]].
    apply String.eqb_eq in Ek. now rewrite Ek. }
  destruct (existsb (fun z => String.eqb (Invoice.id z) (Invoice.id y)) (db_invoices s))
    eqn:Eb; cbv beta iota zeta in H; injection H as <- <-; rewrite Eb; auto.
Qed.

Lemma replace_invoice_ids (x : Invoice.t) (l : list Invoice.t) :
  map Invoice.id (replace_invoice x l) = map Invoice.id l.
Proof.
  induction l as [|y t IH]; simpl; [reflexivity|]. rewrite IH.
  destruct (String.eqb (Invoice.id y) (Invoice.id x)) eqn:E; [|reflexivity].
  apply String.eqb_eq in E. now rewrite E.
Qed.

Lemma replace_invoice_in (x y : Invoice.t) (l : list Invoice.t) :
  In y l -> In (if String.eqb (Invoice.id y) (Invoice.id x) then x else y)
                (replace_invoice x l).
Proof. intro H. unfold replace_invoice. apply (in_map (fun y => _) l y H). Qed.

(** Saving from the editor of an existing invoice ([handleSave] with
    [existingInvoice], then [saveInvoice]) updates it in place: the stored
    invoice keeps its id and creation date, the ids of the invoice table are
    the same as before (no duplicate is added), and every other invoice is
    kept. *)
Theorem handleSave_edits_in_place (sv : server) (e : env) (s s' : db) (inv0 : Invoice.t)
  (supplierId : string) (rows : list InvoiceRow.t) (x : Invoice.t)
  (Hid : Invoice.id inv0 <> EmptyString) (Hcd : Invoice.creation_date inv0 <> EmptyString)
  (Hin : In inv0 (db_invoices s))
  (Hsave : saveInvoice sv (handleSave_invoice (Some inv0) supplierId rows) e s
           = (Ok (Some x), s')) :
  Invoice.id x = Invoice.id inv0 /\
  Invoice.creation_date x = Invoice.creation_date inv0 /\
  Invoice.supplier_id x = supplierId /\
  db_suppliers s' = db_suppliers s /\
  map Invoice.id (db_invoices s') = map Invoice.id (db_invoices s) /\
  In x (db_invoices s') /\
  (forall y, In y (db_invoices s) -> Invoice.id y <> Invoice.id inv0 ->
             In y (db_invoices s')).
Proof.
  apply saveInvoice_ok in Hsave. destruct Hsave as [uid [_ [Hdec [_ Hs']]]].
  apply json_to_invoice_fields in Hdec. destruct Hdec as [Hx1 [Hx2 [Hx3 _]]].
  unfold get_str in Hx1, Hx2, Hx3. cbn [assoc_last] in Hx1, Hx2, Hx3.
  rewrite payload_id in Hx1. rewrite payload_creation_date in Hx3.
  rewrite payload_other_key in Hx2 by discriminate.
  assert (Tid : json_truthy (Some (JsonStr (Invoice.id inv0))) = true).
  { simpl. apply negb_true_iff, String.eqb_neq. exact Hid. }
  assert (Tcd : json_truthy (Some (JsonStr (Invoice.creation_date inv0))) = true).
  { simpl. apply negb_true_iff, String.eqb_neq. exact Hcd. }
  cbn [handleSave_invoice opt_field option_map app assoc_last] in Hx1, Hx2, Hx3.
  simpl String.eqb in Hx1, Hx2, Hx3. cbv beta iota in Hx1, Hx2, Hx3.
  rewrite Tid in Hx1. injection Hx1 as Ex1.
  unfold json_or in Hx3. rewrite Tcd in Hx3. injection Hx3 as Ex3.
  injection Hx2 as Ex2.
  assert (Hex : existsb (fun y => String.eqb (Invoice.id y) (Invoice.id x)) (db_invoices s)
                = true).
  { apply existsb_exists. exists inv0. split; [exact Hin|].
    rewrite <- Ex1. apply String.eqb_refl. }
  rewrite Hex in Hs'. subst s'. cbn [db_suppliers db_invoices].
  split; [symmetry; exact Ex1|]. split; [symmetry; exact Ex3|].
  split; [symmetry; exact Ex2|]. split; [reflexivity|].
  split; [apply replace_invoice_ids|]. split.
  - pose proof (replace_invoice_in x inv0 _ Hin) as H.
    now rewrite <- Ex1, String.eqb_refl in H.
  - intros y Hy Hne. pose proof (replace_invoice_in x y _ Hy) as H.
    replace (String.eqb (Invoice.id y) (Invoice.id x)) with false in H; [exact H|].
    symmetry. apply String.eqb_neq. congruence.
Qed.

(** Saving a new invoice from the editor ([handleSave] with no
    [existingInvoice]) stores it under the id the database generates, with
    the current time as its creation date, for a supplier that exists; when
    the generated id is new, the invoice is appended and nothing else
    changes. *)
Theorem handleSave_new_invoice (sv : server) (e : env) (s s' : db)
  (supplierId : string) (rows : list InvoiceRow.t) (x : Invoice.t)
  (Hsave : saveInvoice sv (handleSave_invoice None supplierId rows) e s
           = (Ok (Some x), s')) :
  Invoice.id x = fresh_id sv /\
  Invoice.creation_date x = now e /\
  Invoice.supplier_id x = supplierId /\
  In supplierId (map Supplier.id (db_suppliers s)) /\
  (~ In (fresh_id sv) (map Invoice.id (db_invoices s)) ->
   s' = mkDb (db_suppliers s) (db_invoices s ++ [x])).
Proof.
  apply saveInvoice_ok in Hsave. destruct Hsave as [uid [_ [Hdec [Hfk Hs']]]].
  apply json_to_invoice_fields in Hdec. destruct Hdec as [Hx1 [Hx2 [Hx3 _]]].
  unfold get_str in Hx1, Hx2, Hx3. cbn [assoc_last] in Hx1, Hx2, Hx3.
  rewrite payload_id in Hx1. rewrite payload_creation_date in Hx3.
  rewrite payload_other_key in Hx2 by discriminate.
  cbn [handleSave_invoice opt_field option_map app assoc_last] in Hx1, Hx2, Hx3.
  simpl in Hx1, Hx2, Hx3.
  injection Hx1 as Ex1. injection Hx2 as Ex2. injection Hx3 as Ex3.
  split; [symmetry; exact Ex1|]. split; [symmetry; exact Ex3|].
  split; [symmetry; exact Ex2|]. split; [now rewrite Ex2|].
  intro Hnew. rewrite Hs'.
  replace (existsb _ (db_invoices s)) with false; [reflexivity|].
  symmetry. apply existsb_false_iff. intros y Hy. apply String.eqb_neq. intro Heq.
  apply Hnew. rewrite Ex1, <- Heq. now apply in_map.
Qed.

Lemma replace_supplier_ids (x : Supplier.t) (l : list Supplier.t) :
  map Supplier.id (replace_supplier x l) = map Supplier.id l.
Proof.
  induction l as [|y t IH]; simpl; [reflexivity|]. rewrite IH.
  unfold supplier_has_id.
  destruct (String.eqb (Supplier.id y) (Supplier.id x)) eqn:E; [|reflexivity].
  apply String.eqb_eq in E. now rewrite E.
Qed.

(** [saveSupplier] never breaks the link between invoices and suppliers:
    whatever it is given and whatever the server answers, no supplier id
    disappears, the invoice table is untouched, and a returned supplier is
    the one stored. *)
Theorem saveSupplier_keeps_links (sv : server) (e : env) (s s' : db)
  (supplier : list (string * json)) (r : option Supplier.t)
  (Hfk : fk_ok s) (Hsave : saveSupplier sv supplier e s = (Ok r, s')) :
  fk_ok s' /\
  incl (map Supplier.id (db_suppliers s)) (map Supplier.id (db_suppliers s')) /\
  db_invoices s' = db_invoices s /\
  (forall x, r = Some x -> In x (db_suppliers s')).
Proof.
  assert (Hincl : incl (map Supplier.id (db_suppliers s)) (map Supplier.id (db_suppliers s')) ->
                  db_invoices s' = db_invoices s -> fk_ok s').
  { intros Hi Hinv i Hi'. rewrite Hinv in Hi'. now apply Hi, Hfk. }
  unfold saveSupplier, getUser, bind, ask, ret in Hsave.
  destruct (auth_user e) as [uid|].
  2:{ injection Hsave as <- <-. repeat split; try easy; try apply incl_refl; intros ? ?; discriminate. }
  unfold sb_upsert_supplier, bind, gets, modify, ret in Hsave.
  destruct (write_fails sv CUpsertSupplier).
  { injection Hsave as <- <-. repeat split; try easy; try apply incl_refl; intros ? ?; discriminate. }
  unfold id in Hsave.
  destruct (json_to_supplier _) as [y|].
  2:{ injection Hsave as <- <-. repeat split; try easy; try apply incl_refl; intros ? ?; discriminate. }
  destruct (existsb (supplier_has_id (Supplier.id y)) (db_suppliers s)) eqn:Ex;
    cbv beta iota zeta in Hsave; injection Hsave as <- <-; cbn [db_suppliers db_invoices].
  - rewrite replace_supplier_ids.
    assert (Hi : incl (map Supplier.id (db_suppliers s)) (map Supplier.id (db_suppliers s)))
      by apply incl_refl.
    split; [apply Hincl; [cbn [db_suppliers]; rewrite replace_supplier_ids; exact Hi
                         | reflexivity]|].
    split; [exact Hi|]. split; [reflexivity|].
    intros x Hx. injection Hx as <-.
    apply existsb_exists in Ex. destruct Ex as [z [Hz Ez]].
    pose proof (in_map (fun w => if supplier_has_id (Supplier.id y) w then y else w) _ _ Hz)
      as H. cbv beta in H. now rewrite Ez in H.
  - assert (Hi : incl (map Supplier.id (db_suppliers s))
                      (map Supplier.id (db_suppliers s ++ [y]))).
    { rewrite map_app. apply incl_appl, incl_refl. }
    split; [apply Hincl; [exact Hi | reflexivity]|].
    split; [exact Hi|]. split; [reflexivity|].
    intros x Hx. injection Hx as <-. apply in_or_app. right. now left.
Qed.

(** ** [getEnrichedInvoices] *)

Lemma map_opt_none {A B} (f : A -> option B) (l : list A) :
  map_opt f l = None <-> exists x, In x l /\ f x = None.
Proof.
  induction l as [|x t IH]; simpl.
  - split; [discriminate | intros [x [[] _]]].
  - destruct (f x) eqn:Ex.
    + destruct (map_opt f t) eqn:Et.
      * split; [discriminate|]. intros [y [[<-|Hy] Hfy]]; [congruence|].
        assert (Hn : Some l = None) by (apply IH; eauto). discriminate.
      * split; [|reflexivity]. intros _. destruct (proj1 IH eq_refl) as [y [Hy Hfy]].
        exists y. auto.
    + split; [|reflexivity]. intros _. exists x. auto.
Qed.

Lemma getInvoiceInitialAmount_none (inv : Invoice.t) :
  getInvoiceInitialAmount inv = None <->
  exists v, Invoice.rows inv = RowsNotArray v /\
            (v = JBool true \/ exists z, v = JNumber z /\ z <> 0).
Proof.
  unfold getInvoiceInitialAmount. destruct (Invoice.rows inv) as [[|r t]|v].
  - split; [discriminate | intros [v [Hv _]]; discriminate].
  - split; [discriminate | intros [v [Hv _]]; discriminate].
  - destruct v as [| |b|z|str]; simpl.
    + split; [discriminate | intros [v [Hv [Hv'|[z [Hz _]]]]]; injection Hv; congruence].
    + split; [discriminate | intros [v [Hv [Hv'|[z [Hz _]]]]]; injection Hv; congruence].
    + destruct b; simpl.
      * split; [intros _; exists (JBool true); auto | reflexivity].
      * split; [discriminate | intros [v [Hv [Hv'|[z [Hz _]]]]]; injection Hv; congruence].
    + destruct (z =? 0) eqn:Ez.
      * apply Z.eqb_eq in Ez. subst z.
        split; [discriminate | intros [v [Hv [Hv'|[z [Hz Hz0]]]]]; injection Hv; congruence].
      * split; [intros _ | reflexivity]. exists (JNumber z). split; [reflexivity|].
        right. exists z. split; [reflexivity|]. now apply Z.eqb_neq.
    + destruct (String.eqb str EmptyString);
        (split; [discriminate | intros [v [Hv [Hv'|[z [Hz _]]]]]; injection Hv; congruence]).
Qed.

(** [getEnrichedInvoices] throws (the whole render fails) when some invoice
    whose supplier is found has a [rows] value that is [true] or a non-zero
    number: [getInvoiceInitialAmount] then reads [credit] of
    [invoice.rows[0]], which is [undefined]. *)
Theorem getEnrichedInvoices_throws (suppliers : list Supplier.t) (invoices : list Invoice.t)
  (H : exists inv v, In inv invoices /\ find_supplier suppliers inv <> None /\
                     Invoice.rows inv = RowsNotArray v /\
                     (v = JBool true \/ exists z, v = JNumber z /\ z <> 0)) :
  getEnrichedInvoices suppliers invoices = None.
Proof.
  unfold getEnrichedInvoices.
  replace (map_opt (enrich suppliers) invoices) with (@None (list (option InvoiceWithSupplier.t)));
    [reflexivity|]. symmetry. apply map_opt_none.
  destruct H as [inv [v [Hin [Hf [Hr Hv]]]]].
  exists inv. split; [exact Hin|]. unfold enrich.
  destruct (find_supplier suppliers inv); [|contradiction].
  replace (getInvoiceInitialAmount inv) with (@None jsnum); [reflexivity|].
  symmetry. apply getInvoiceInitialAmount_none. eauto.
Qed.

(** When [getEnrichedInvoices] succeeds, it keeps exactly the invoices whose
    supplier is found, in their order (orphan invoices are silently left
    out), and each one carries the first supplier with its [supplier_id],
    its own fields, [calculateInvoiceBalance] as [balance] and
    [getInvoiceInitialAmount] as [initialAmount]. *)
Theorem getEnrichedInvoices_keeps_linked (suppliers : list Supplier.t)
  (invoices : list Invoice.t) (l : list InvoiceWithSupplier.t)
  (H : getEnrichedInvoices suppliers invoices = Some l) :
  Forall2 (fun inv w =>
             find_supplier suppliers inv = Some (InvoiceWithSupplier.supplier w) /\
             InvoiceWithSupplier.id w = Invoice.id inv /\
             InvoiceWithSupplier.supplier_id w = Invoice.supplier_id inv /\
             InvoiceWithSupplier.creation_date w = Invoice.creation_date inv /\
             InvoiceWithSupplier.rows w = Invoice.rows inv /\
             InvoiceWithSupplier.balance w = calculateInvoiceBalance inv /\
             getInvoiceInitialAmount inv = Some (InvoiceWithSupplier.initialAmount w))
          (filter (fun inv => match find_supplier suppliers inv with
                              | Some _ => true | None => false end) invoices)
          l.
Proof.
  unfold getEnrichedInvoices in H.
  destruct (map_opt (enrich suppliers) invoices) as [r|] eqn:E; [|discriminate].
  injection H as <-. revert r E.
  induction invoices as [|x t IH]; intros r E; simpl in E.
  - injection E as <-. constructor.
  - destruct (enrich suppliers x) as [o|] eqn:Ex; [|discriminate].
    destruct (map_opt (enrich suppliers) t) as [r'|] eqn:Et; [|discriminate].
    injection E as <-. unfold enrich in Ex. simpl.
    destruct (find_supplier suppliers x) as [sup|] eqn:Ef.
    + destruct (getInvoiceInitialAmount x) as [ini|] eqn:Eg; [|discriminate].
      injection Ex as <-. simpl. constructor; [|exact (IH r' eq_refl)].
      repeat split; simpl; auto.
    + injection Ex as <-. simpl. exact (IH r' eq_refl).
Qed.

(** ** Totals of the tabs *)

Lemma insert_by_opt_perm {A} (cmp : A -> A -> option jsnum) (x : A) (l r : list A) :
  insert_by_opt cmp x l = Some r -> Permutation r (x :: l).
Proof.
  revert r. induction l as [|y t IH]; intros r H; simpl in H.
  - injection H as <-. reflexivity.
  - destruct (cmp x y) as [c|]; [|discriminate].
    destruct (js_gt0 c).
    + destruct (insert_by_opt cmp x t) as [r'|] eqn:E; [|discriminate].
      injection H as <-. rewrite (IH r' eq_refl). apply perm_swap.
    + injection H as <-. reflexivity.
Qed.

Lemma sort_by_opt_perm {A} (cmp : A -> A -> option jsnum) (l r : list A) :
  sort_by_opt cmp l = Some r -> Permutation r l.
Proof.
  revert r. induction l as [|x t IH]; intros r H; simpl in H.
  - injection H as <-. reflexivity.
  - destruct (sort_by_opt cmp t) as [r'|] eqn:E; [|discriminate].
    rewrite (insert_by_opt_perm cmp x r' r H). apply perm_skip, IH, eq_refl.
Qed.

Lemma filter_opt_incl {A} (p : A -> option bool) (l r : list A) :
  filter_opt p l = Some r -> forall x, In x r -> In x l.
Proof.
  revert r. induction l as [|y t IH]; intros r H x Hx; simpl in H.
  - injection H as <-. exact Hx.
  - destruct (p y) as [b|]; [|discriminate].
    destruct (filter_opt p t) as [r'|] eqn:E; [|discriminate].
    injection H as <-. destruct b.
    + destruct Hx as [<-|Hx]; [now left | right; exact (IH r' eq_refl x Hx)].
    + right. exact (IH r' eq_refl x Hx).
Qed.

Lemma js_sum_positive {A} (f : A -> jsnum) (l : list A) :
  (forall x, In x l -> js_gt0 (f x) = true) ->
  exists n, js_sum (map f l) = JNum n /\ 0 <= n /\ (0 < n <-> l <> []).
Proof.
  induction l as [|x t IH]; intro H; simpl.
  - exists 0. split; [reflexivity|]. split; [lia|]. split; [lia | congruence].
  - destruct IH as [n [En [Hn _]]]; [intros y Hy; apply H; now right|].
    pose proof (H x (or_introl eq_refl)) as Hx.
    destruct (f x) as [a|]; [|discriminate]. simpl in Hx. apply Z.ltb_lt in Hx.
    rewrite En. exists (a + n). split; [reflexivity|]. split; [lia|].
    split; [intros _; discriminate | intros _; lia].
Qed.

(** On the dashboard ([ActiveInvoicesTab]) the "to pay" total is never NaN
    and never negative: it is positive exactly when the list is non-empty,
    whatever the filters. Every listed invoice has a positive balance. *)
Theorem sumPay_positive `{D : JsDate} (f : Filters)
  (enrichedInvoices merch toPay : list InvoiceWithSupplier.t)
  (H : dashboardLists f enrichedInvoices = Some (merch, toPay)) :
  Forall (fun i => js_gt0 (InvoiceWithSupplier.balance i) = true) toPay /\
  exists n, sumBalances toPay = JNum n /\ (0 < n <-> toPay <> []).
Proof.
  unfold dashboardLists in H.
  destruct (applyFilters f (merchandiseInvoices enrichedInvoices)); [|discriminate].
  destruct (sort_by_opt active_cmp l); [|discriminate].
  destruct (applyFilters f (toPayInvoices enrichedInvoices)) as [p|] eqn:Ep; [|discriminate].
  destruct (sort_by_opt active_cmp p) as [p'|] eqn:Es; [|discriminate].
  injection H as _ <-.
  assert (Hpos : forall i, In i p' -> js_gt0 (InvoiceWithSupplier.balance i) = true).
  { intros i Hi. apply (Permutation_in _ (sort_by_opt_perm _ _ _ Es)) in Hi.
    apply (filter_opt_incl _ _ _ Ep) in Hi.
    unfold toPayInvoices in Hi. apply filter_In in Hi. destruct Hi as [_ Hi].
    now apply andb_true_iff in Hi. }
  split; [now apply Forall_forall|].
  destruct (js_sum_positive InvoiceWithSupplier.balance p' Hpos) as [n [En [_ Hn]]].
  exists n. split; [|exact Hn].
  unfold sumBalances. rewrite fold_left_js_add, js_add_0_l. exact En.
Qed.

(** ** The list of years *)

Lemma jsnum_eqb_eq (a b : jsnum) : jsnum_eqb a b = true <-> a = b.
Proof.
  destruct a, b; simpl; split; intro H; try congruence.
  - apply Z.eqb_eq in H. now subst.
  - injection H as ->. apply Z.eqb_refl.
Qed.

Lemma set_from_fold (l acc : list jsnum) :
  NoDup acc ->
  NoDup (fold_left (fun acc x => if existsb (jsnum_eqb x) acc then acc else acc ++ [x]) l acc) /\
  (forall y, In y (fold_left (fun acc x => if existsb (jsnum_eqb x) acc then acc else acc ++ [x])
                             l acc) <-> In y acc \/ In y l).
Proof.
  revert acc. induction l as [|x t IH]; intros acc Hacc; simpl.
  - split; [exact Hacc|]. intro y. tauto.
  - destruct (existsb (jsnum_eqb x) acc) eqn:E.
    + destruct (IH acc Hacc) as [H1 H2]. split; [exact H1|].
      intro y. rewrite H2. split; [tauto|].
      intros [H|[<-|H]]; auto. left.
      apply existsb_exists in E. destruct E as [z [Hz Ez]].
      apply jsnum_eqb_eq in Ez. now subst.
    + assert (Hnd : NoDup (acc ++ [x])).
      { apply NoDup_app; [exact Hacc | constructor; [intros []|constructor] |].
        intros z Hz [<-|[]]. assert (existsb (jsnum_eqb x) acc = true).
        { apply existsb_exists. exists x. split; [exact Hz|]. now apply jsnum_eqb_eq. }
        congruence. }
      destruct (IH (acc ++ [x]) Hnd) as [H1 H2]. split; [exact H1|].
      intro y. rewrite H2, in_app_iff. simpl. tauto.
Qed.

Lemma insert_by_string_perm (x : jsnum) (l : list jsnum) :
  Permutation (insert_by_string x l) (x :: l).
Proof.
  induction l as [|y t IH]; simpl; [reflexivity|].
  destruct (String.ltb _ _); [|reflexivity]. rewrite IH. apply perm_swap.
Qed.

Lemma sort_default_perm (l : list jsnum) : Permutation (sort_default l) l.
Proof.
  induction l as [|x t IH]; simpl; [reflexivity|].
  rewrite insert_by_string_perm. now apply perm_skip.
Qed.

Lemma Forall2_In_iff {A B} (f : A -> option B) (l : list A) (r : list B) :
  Forall2 (fun a b => f a = Some b) l r ->
  forall y, In y r <-> exists x, In x l /\ f x = Some y.
Proof.
  induction 1 as [|a b l r Hab _ IH]; intro y; simpl.
  - split; [intros []|intros [x [[] _]]].
  - rewrite IH. split.
    + intros [<-|[x [Hx Hfx]]]; [exists a; auto | exists x; auto].
    + intros [x [[<-|Hx] Hfx]]; [left; congruence | right; exists x; auto].
Qed.

(** The year selector of the dashboard and of the history ([years]) lists
    each year once, and exactly the years of the invoices' first-row
    dates. *)
Theorem years_distinct `{D : JsDate} (enrichedInvoices : list InvoiceWithSupplier.t)
  (ys : list jsnum) (H : years enrichedInvoices = Some ys) :
  NoDup ys /\
  (forall y, In y ys <-> exists i, In i enrichedInvoices /\ invoice_year i = Some y).
Proof.
  unfold years in H.
  destruct (map_opt invoice_year enrichedInvoices) as [l|] eqn:E; [|discriminate].
  injection H as <-. unfold set_from.
  destruct (set_from_fold l [] (NoDup_nil _)) as [Hnd Hin].
  pose proof (Permutation_trans (Permutation_sym (Permutation_rev _)) (sort_default_perm
    (fold_left (fun acc x => if existsb (jsnum_eqb x) acc then acc else acc ++ [x]) l [])))
    as Hp.
  split.
  - exact (Permutation_NoDup (Permutation_sym Hp) Hnd).
  - intro y. assert (Hy : In y (rev (sort_default (set_from l))) <->
                          In y (fold_left (fun acc x => if existsb (jsnum_eqb x) acc then acc
                                                        else acc ++ [x]) l [])).
    { split; apply Permutation_in; [exact Hp | exact (Permutation_sym Hp)]. }
    unfold set_from in Hy. rewrite Hy, Hin.
    rewrite <- (Forall2_In_iff _ _ _ (map_opt_Forall2 _ _ _ E)). simpl. tauto.
Qed.

(** ** The supplier search of [SupplierListTab] *)

Lemma lower_ascii_idem (c : ascii) : lower_ascii (lower_ascii c) = lower_ascii c.
Proof.
  assert (Hl : forall d, lower_ascii d =
     if (65 <=? nat_of_ascii d)%nat && (nat_of_ascii d <=? 90)%nat
     then ascii_of_nat (nat_of_ascii d + 32) else d) by reflexivity.
  rewrite (Hl c).
  destruct ((65 <=? nat_of_ascii c)%nat && (nat_of_ascii c <=? 90)%nat) eqn:E.
  - apply andb_true_iff in E. destruct E as [E1 E2].
    apply Nat.leb_le in E1. apply Nat.leb_le in E2.
    rewrite Hl, nat_ascii_embedding by lia.
    replace ((65 <=? nat_of_ascii c + 32)%nat && (nat_of_ascii c + 32 <=? 90)%nat) with false.
    + reflexivity.
    + symmetry. apply andb_false_iff. right. apply Nat.leb_gt. lia.
  - now rewrite Hl, E.
Qed.

Lemma toLowerCase_idem (s : string) : toLowerCase (toLowerCase s) = toLowerCase s.
Proof. induction s as [|c t IH]; simpl; [reflexivity|]. now rewrite lower_ascii_idem, IH. Qed.

Lemma includes_empty (h : string) : includes h EmptyString = true.
Proof. destruct h; reflexivity. Qed.

(** The supplier search ignores the case of what is typed: a search and its
    lower-case form list the same suppliers in the same order. An empty
    search lists every supplier, only reordered by name. *)
Theorem supplierList_search (localeCompare : string -> string -> Z) (search : string)
  (suppliers : list Supplier.t) :
  supplierList localeCompare (toLowerCase search) suppliers =
    supplierList localeCompare search suppliers /\
  Permutation (supplierList localeCompare EmptyString suppliers) suppliers.
Proof.
  unfold supplierList. rewrite toLowerCase_idem. split; [reflexivity|].
  rewrite sort_by_perm. simpl.
  rewrite (filter_ext _ (fun _ => true)) by (intro a; apply includes_empty).
  now rewrite filter_true.
Qed.

(** ** The data handlers of [App] *)

Lemma getSuppliers_run (e : env) (s : db) :
  getSuppliers e s =
    (Ok (if fails e CSelectSuppliers then [] else sort_by_name (db_suppliers s)), s).
Proof.
  unfold getSuppliers, sb_select_suppliers, request, bind, ask, gets, ret.
  now destruct (fails e CSelectSuppliers).
Qed.

Lemma getInvoices_run (e : env) (s : db) :
  getInvoices e s =
    (Ok (if fails e CSelectInvoices then [] else db_invoices s), s).
Proof.
  unfold getInvoices, sb_select_invoices, request, bind, ask, gets, ret.
  now destruct (fails e CSelectInvoices).
Qed.

Lemma refreshData_run (e : env) (st : App.t) (s : db) :
  refreshData e (st, s) =
    (Ok tt,
     (if App.session st then
        App.set_isLoading false
          (App.set_invoices (if fails e CSelectInvoices then [] else db_invoices s)
            (App.set_suppliers
               (if fails e CSelectSuppliers then [] else sort_by_name (db_suppliers s))
               (App.set_isLoading true st)))
      else st, s)).
Proof.
  unfold refreshData, bindA, getApp. destruct st as [[|] ? ? ? ? ? ? ? ? ? ?]; simpl;
    [|reflexivity].
  unfold finallyA, try_catchA, bindA, lift, setApp. simpl.
  rewrite getSuppliers_run, getInvoices_run. reflexivity.
Qed.

Lemma deleteInvoice_run (sv : server) (id : string) (e : env) (s : db) :
  deleteInvoice sv id e s =
    (Ok tt, if write_fails sv CDeleteInvoice then s
            else mkDb (db_suppliers s)
                      (filter (fun i => negb (String.eqb (Invoice.id i) id)) (db_invoices s))).
Proof.
  unfold deleteInvoice, sb_delete_invoice, bind, modify, ret.
  now destruct (write_fails sv CDeleteInvoice).
Qed.

(** [confirmDeleteInvoice] never shows its error alert and never rejects:
    [deleteInvoice] swallows a failed delete, so the catch branch cannot be
    reached. With an invoice to delete it always closes the editor, clears
    the pending deletion and ends loading, whether or not the database
    dropped the invoice; after a successful reload the list shows the
    database's invoices. With nothing to delete nothing changes. *)
Theorem confirmDeleteInvoice_no_alert (sv : server) (e : env) (st : App.t) (s : db) :
  let '(r, (st', s')) := confirmDeleteInvoice sv e (st, s) in
  r = Ok tt /\ App.alerts st' = App.alerts st /\
  (App.invoiceToDelete st = None -> st' = st /\ s' = s) /\
  (forall id, App.invoiceToDelete st = Some id -> id <> EmptyString ->
     App.invoiceToDelete st' = None /\ App.isLoading st' = false /\
     App.isOpen (App.editingInvoice st') = false /\
     db_invoices s' =
       (if write_fails sv CDeleteInvoice then db_invoices s
        else filter (fun i => negb (String.eqb (Invoice.id i) id)) (db_invoices s)) /\
     (App.session st = true -> fails e CSelectInvoices = false ->
        App.invoices st' = db_invoices s')).
Proof.
  destruct st as [ses tab sups invs load sel std [id|] modal ed al].
  - unfold confirmDeleteInvoice, bindA, getApp. simpl.
    destruct (str_empty id) eqn:Eid.
    + simpl. split; [reflexivity|]. split; [reflexivity|]. split; [discriminate|].
      intros id' Hid Hne. injection Hid as <-. unfold str_empty in Eid.
      apply String.eqb_eq in Eid. contradiction.
    + unfold finallyA, try_catchA, bindA, setApp, lift. simpl.
      rewrite deleteInvoice_run. simpl. rewrite refreshData_run. simpl.
      split; [reflexivity|]. split; [destruct ses; reflexivity|]. split; [discriminate|].
      intros id' Hid _. injection Hid as <-.
      destruct ses; simpl; (split; [reflexivity|]); (split; [reflexivity|]);
        (split; [reflexivity|]); (split; [now destruct (write_fails sv CDeleteInvoice)|]).
      * intros _ Hf. rewrite Hf. reflexivity.
      * discriminate.
  - simpl. split; [reflexivity|]. split; [reflexivity|]. split; [auto|].
    intros id Hid. discriminate.
Qed.

Lemma deleteSupplier_run (id : string) (e : env) (s : db) :
  deleteSupplier id e s =
    (Ok tt, if fails e CDeleteSupplier then s
            else delete_suppliers_cascade (supplier_has_id id) s).
Proof.
  unfold deleteSupplier, sb_delete_supplier, request, bind, ask, modify, ret.
  now destruct (fails e CDeleteSupplier).
Qed.

Lemma cascade_gone (id : string) (s : db) (Hfk : fk_ok s) :
  ~ In id (map Supplier.id (db_suppliers (delete_suppliers_cascade (supplier_has_id id) s))) /\
  (forall i, In i (db_invoices (delete_suppliers_cascade (supplier_has_id id) s)) ->
             Invoice.supplier_id i <> id).
Proof.
  unfold delete_suppliers_cascade; simpl. split.
  - intro H. apply in_map_iff in H. destruct H as [x [Ex Hx]].
    apply filter_In in Hx. destruct Hx as [_ Hx].
    unfold supplier_has_id in Hx. rewrite Ex, String.eqb_refl in Hx. discriminate.
  - intros i Hi Heq. apply filter_In in Hi. destruct Hi as [Hi Hn].
    apply Hfk in Hi. apply in_map_iff in Hi. destruct Hi as [x [Ex Hx]].
    assert (Hg : existsb (String.eqb (Invoice.supplier_id i))
                         (map Supplier.id (filter (supplier_has_id id) (db_suppliers s))) = true).
    { apply existsb_exists. exists (Supplier.id x). split.
      - apply in_map, filter_In. split; [exact Hx|].
        unfold supplier_has_id. rewrite Ex, Heq. apply String.eqb_refl.
      - rewrite Ex. apply String.eqb_refl. }
    rewrite Hg in Hn. discriminate.
Qed.

(** [confirmDeleteSupplier] never rejects; it clears the pending deletion
    and ends loading. If the deleted supplier was the one open in the
    detail tab, the selection is cleared and the dashboard tab (0) is shown;
    otherwise selection and tab stay. After a successful delete and reload
    (with the schema's foreign key) neither the supplier nor any of its
    invoices is listed any more. *)
Theorem confirmDeleteSupplier_clears (e : env) (st : App.t) (s : db) (id : string)
  (Hd : App.supplierToDelete st = Some id) (Hne : id <> EmptyString) :
  let '(r, (st', s')) := confirmDeleteSupplier e (st, s) in
  r = Ok tt /\ App.supplierToDelete st' = None /\ App.isLoading st' = false /\
  (App.selectedSupplierId st = Some id ->
     App.selectedSupplierId st' = None /\ App.activeTab st' = 0) /\
  (App.selectedSupplierId st <> Some id ->
     App.selectedSupplierId st' = App.selectedSupplierId st /\
     App.activeTab st' = App.activeTab st) /\
  (App.session st = true -> fails e CDeleteSupplier = false ->
   fails e CSelectSuppliers = false -> fails e CSelectInvoices = false -> fk_ok s ->
     ~ In id (map Supplier.id (App.suppliers st')) /\
     (forall i, In i (App.invoices st') -> Invoice.supplier_id i <> id)).
Proof.
  destruct st as [ses tab sups invs load sel std itd modal ed al]. simpl in Hd. subst std.
  unfold confirmDeleteSupplier, bindA, getApp. simpl.
  assert (Eid : str_empty id = false).
  { unfold str_empty. now apply String.eqb_neq. }
  rewrite Eid. unfold setApp, lift. simpl.
  rewrite deleteSupplier_run. simpl. rewrite refreshData_run. simpl.
  assert (Hsel : match sel with Some s0 => String.eqb s0 id | None => false end = true <->
                 sel = Some id).
  { destruct sel as [x|]; [rewrite String.eqb_eq; split; congruence | split; discriminate]. }
  destruct (match sel with Some s0 => String.eqb s0 id | None => false end) eqn:Es; simpl.
  - assert (Hs : sel = Some id) by now apply Hsel.
    destruct ses; simpl; (split; [reflexivity|]); (split; [reflexivity|]);
      (split; [reflexivity|]); (split; [intros _; split; reflexivity|]);
      (split; [intro H; contradiction|]).
    + intros _ Hdel Hs1 Hi1 Hfk. rewrite Hdel, Hs1, Hi1.
      destruct (cascade_gone id s Hfk) as [H1 H2]. split; [|exact H2].
      intro H. apply H1. rewrite in_map_iff in H |- *. destruct H as [x [Ex Hx]].
      exists x. split; [exact Ex|]. exact (Permutation_in _ (sort_by_name_perm _) Hx).
    + discriminate.
  - assert (Hs : sel <> Some id) by (intro H; apply Hsel in H; discriminate).
    destruct ses; simpl; (split; [reflexivity|]); (split; [reflexivity|]);
      (split; [reflexivity|]); (split; [intro H; contradiction|]);
      (split; [intros _; split; reflexivity|]).
    + intros _ Hdel Hs1 Hi1 Hfk. rewrite Hdel, Hs1, Hi1.
      destruct (cascade_gone id s Hfk) as [H1 H2]. split; [|exact H2].
      intro H. apply H1. rewrite in_map_iff in H |- *. destruct H as [x [Ex Hx]].
      exists x. split; [exact Ex|]. exact (Permutation_in _ (sort_by_name_perm _) Hx).
    + discriminate.
Qed.

(** The wipe needs only its two delete requests to succeed. *)
Lemma deleteAllSuppliers_empties (e : env) (s : db)
  (H1 : fails e CDeleteAllInvoices = false) (H2 : fails e CDeleteAllSuppliers = false)
  (Hfk : fk_ok s) (Hnil : ~ In nil_uuid (map Supplier.id (db_suppliers s))) :
  deleteAllSuppliers e s = (Ok tt, mkDb [] []).
Proof.
  unfold deleteAllSuppliers, sb_delete_invoices_neq, sb_delete_suppliers_neq, request,
    bind, ask, ret, modify.
  rewrite H1, H2. simpl. unfold delete_suppliers_cascade. simpl. f_equal. f_equal.
  - apply filter_nil_of_false. intros x Hx.
    unfold supplier_has_id. rewrite negb_involutive.
    destruct (String.eqb (Supplier.id x) nil_uuid) eqn:E; [|reflexivity].
    apply String.eqb_eq in E. exfalso. apply Hnil. rewrite <- E. now apply in_map.
  - apply filter_nil_of_false. intros i Hi.
    apply filter_In in Hi. destruct Hi as [Hi _].
    apply Hfk in Hi. rewrite in_map_iff in Hi. destruct Hi as [x [Ex Hx]].
    apply negb_false_iff, existsb_exists. exists (Supplier.id x). split.
    + apply in_map, filter_In. split; [exact Hx|].
      unfold supplier_has_id. destruct (String.eqb (Supplier.id x) nil_uuid) eqn:E;
        [|reflexivity].
      apply String.eqb_eq in E. exfalso. apply Hnil. rewrite <- E. now apply in_map.
    + now rewrite Ex, String.eqb_refl.
Qed.

(** [confirmDeleteAllSuppliers] empties both tables when its two deletes
    succeed, closes the confirmation, clears the selection, shows the
    dashboard tab and ends loading; with a session the lists of [App] are
    then empty, whether or not the reloads succeed (a failed read also
    gives an empty list). *)
Theorem confirmDeleteAllSuppliers_empties (e : env) (st : App.t) (s : db)
  (H1 : fails e CDeleteAllInvoices = false) (H2 : fails e CDeleteAllSuppliers = false)
  (Hfk : fk_ok s) (Hnil : ~ In nil_uuid (map Supplier.id (db_suppliers s))) :
  let '(r, (st', s')) := confirmDeleteAllSuppliers e (st, s) in
  r = Ok tt /\ s' = mkDb [] [] /\
  App.isDeleteAllModalOpen st' = false /\ App.selectedSupplierId st' = None /\
  App.activeTab st' = 0 /\ App.isLoading st' = false /\
  (App.session st = true -> App.suppliers st' = [] /\ App.invoices st' = []).
Proof.
  unfold confirmDeleteAllSuppliers, bindA, setApp, lift. simpl.
  rewrite (deleteAllSuppliers_empties e s H1 H2 Hfk Hnil). simpl.
  rewrite refreshData_run. simpl.
  destruct st as [[|] tab sups invs load sel std itd modal ed al]; simpl;
    repeat split; try reflexivity; try discriminate.
  - now destruct (fails e CSelectSuppliers).
  - now destruct (fails e CSelectInvoices).
Qed.

Lemma sb_insert_suppliers_fails (records : list json) (e : env) (s : db)
  (H : fails e CInsertSuppliers = true) :
  sb_insert_suppliers records e s = (Ok RError, s).
Proof. unfold sb_insert_suppliers, bind, ask, gets, ret. now rewrite H. Qed.

(** A failed import can leave the user looking at data that is gone: when
    the document is well formed but the insert of the suppliers is rejected,
    [importDatabase] has already wiped both tables and resolves to [false];
    [onImportLoad] then only shows its error alert and does not reload, so
    [App] keeps listing the old suppliers and invoices while the database
    is empty. *)
Theorem onImportLoad_failure_stale (json_parse : string -> option json) (content : string)
  (e : env) (st : App.t) (s : db) (d : json) (sl il : list json) (uid : string)
  (Hc : content <> EmptyString) (Hp : json_parse content = Some d)
  (Hs : field_of d "suppliers" = Some (JsonArr sl))
  (Hi : field_of d "invoices" = Some (JsonArr il))
  (Hne : sl <> []) (Hu : auth_user e = Some uid)
  (H1 : fails e CDeleteAllInvoices = false) (H2 : fails e CDeleteAllSuppliers = false)
  (H3 : fails e CInsertSuppliers = true)
  (Hfk : fk_ok s) (Hnil : ~ In nil_uuid (map Supplier.id (db_suppliers s))) :
  onImportLoad json_parse content e (st, s) =
    (Ok tt, (App.set_isLoading false
               (App.push_alert import_error_alert (App.set_isLoading true st)),
             mkDb [] [])).
Proof.
  assert (Hb : import_body (Some d) e s = (Throw "supError", mkDb [] [])).
  { destruct d as [| | | | |fs]; try discriminate. simpl in Hs, Hi.
    unfold import_body.
    assert (Hg : getUser e s = (Ok (Some uid), s))
      by (unfold getUser, bind, ask, ret; now rewrite Hu).
    rewrite (bind_ok _ _ e s s _ Hg). cbv beta iota.
    unfold get_prop. rewrite (bind_ok (ret (JsonObj fs)) _ e s s (JsonObj fs) eq_refl).
    cbv beta iota.
    rewrite (bind_ok (ret (assoc_last fs "suppliers")) _ e s s _ eq_refl). rewrite Hs.
    cbv beta iota.
    rewrite (bind_ok (ret (assoc_last fs "invoices")) _ e s s _ eq_refl). rewrite Hi.
    cbv beta iota.
    rewrite (bind_ok _ _ e s _ tt (deleteAllSuppliers_empties e s H1 H2 Hfk Hnil)).
    cbv beta iota zeta.
    destruct sl as [|x t]; [contradiction|]. simpl List.length. cbv beta iota.
    cbn [Nat.ltb Nat.leb]. apply bind_throw.
    rewrite (bind_ok _ _ e _ _ RError (sb_insert_suppliers_fails _ e _ H3)).
    reflexivity. }
  unfold onImportLoad.
  assert (Ec : str_empty content = false) by (unfold str_empty; now apply String.eqb_neq).
  rewrite Ec. unfold bindA, setApp, lift. simpl.
  unfold importDatabase. rewrite Hp, import_parsed_catch, Hb. reflexivity.
Qed.

(** ** [handleUpdateSupplier] *)

Lemma saveSupplier_resolves (sv : server) (supplier : list (string * json)) (e : env) (s : db) :
  exists r s', saveSupplier sv supplier e s = (Ok r, s') /\
               (write_fails sv CUpsertSupplier = true -> r = None /\ s' = s).
Proof.
  unfold saveSupplier, getUser, bind, ask, ret.
  destruct (auth_user e) as [uid|]; [|exists None, s; split; [reflexivity | auto]].
  unfold sb_upsert_supplier.
  destruct (write_fails sv CUpsertSupplier) eqn:Ew.
  - exists None, s. split; [reflexivity | auto].
  - destruct (json_to_supplier _) as [x|].
    + unfold bind, gets, modify, ret, id. simpl.
      destruct (existsb (supplier_has_id (Supplier.id x)) (db_suppliers s)); eexists; eexists; (split; [reflexivity | discriminate]).
    + exists None, s. split; [reflexivity | discriminate].
Qed.

(** [handleUpdateSupplier] always reports success: whether the save is
    rejected or not (for instance when the upsert fails and the database is
    left as it was), it alerts "Dati fornitore aggiornati", never rejects,
    and ends loading. *)
Theorem handleUpdateSupplier_always_alerts (sv : server) (fd : list (string * json))
  (e : env) (st : App.t) (s : db) :
  let '(r, (st', s')) := handleUpdateSupplier sv (Some fd) e (st, s) in
  r = Ok tt /\ App.alerts st' = App.alerts st ++ [supplier_updated_alert] /\
  App.isLoading st' = false /\
  (write_fails sv CUpsertSupplier = true -> s' = s).
Proof.
  destruct (saveSupplier_resolves sv fd e s) as [r [s1 [Hs Hf]]].
  unfold handleUpdateSupplier, bindA, setApp, lift. simpl.
  rewrite Hs. simpl. rewrite refreshData_run. simpl.
  split; [reflexivity|].
  destruct st as [[|] tab sups invs load sel std itd modal ed al]; simpl;
    (split; [reflexivity|]); (split; [reflexivity|]); intro Hw; apply Hf, Hw.
Qed.

(** ** [handleSubmit] of [ChangePasswordModal] *)

(** [handleSubmit] sends the new password to [updateUser] exactly when the
    two fields agree and it has at least 6 characters. A mismatch is
    reported first, even for a short password. After a successful update
    both fields are cleared, the success message is shown and the closing
    is scheduled; a failed update shows the server's message and keeps the
    fields. *)
Theorem handleSubmit_validates (updateUser_error : string -> option string) (st : PwForm.t) :
  let '(st', sent) := handleSubmit updateUser_error st in
  (sent <> [] <->
     PwForm.password st = PwForm.confirmPassword st /\
     (6 <= String.length (PwForm.password st))%nat) /\
  (sent <> [] -> sent = [PwForm.password st]) /\
  (PwForm.password st <> PwForm.confirmPassword st ->
     PwForm.message st' = Some (MsgError, pw_mismatch_msg)) /\
  (PwForm.password st = PwForm.confirmPassword st ->
   (String.length (PwForm.password st) < 6)%nat ->
     PwForm.message st' = Some (MsgError, pw_short_msg)) /\
  (sent <> [] -> updateUser_error (PwForm.password st) = None ->
     PwForm.password st' = EmptyString /\ PwForm.confirmPassword st' = EmptyString /\
     PwForm.message st' = Some (MsgSuccess, pw_updated_msg) /\
     PwForm.closeScheduled st' = true) /\
  (forall m, sent <> [] -> updateUser_error (PwForm.password st) = Some m ->
     PwForm.password st' = PwForm.password st /\
     PwForm.confirmPassword st' = PwForm.confirmPassword st /\
     PwForm.message st' = Some (MsgError, m)).
Proof.
  destruct st as [p c l m0 cs]. unfold handleSubmit. simpl.
  destruct (String.eqb p c) eqn:Epc; simpl.
  - apply String.eqb_eq in Epc. subst c.
    destruct (String.length p <? 6)%nat eqn:El; simpl.
    + apply Nat.ltb_lt in El.
      split; [split; [intro H; contradiction | intros [_ H]; lia]|].
      split; [intro H; contradiction|]. split; [intro H; contradiction|].
      split; [reflexivity|]. split; [intro H; contradiction|]. intros ? H; contradiction.
    + apply Nat.ltb_ge in El.
      destruct (updateUser_error p) as [msg|] eqn:Eu; simpl.
      * split; [split; [auto | discriminate]|]. split; [reflexivity|].
        split; [intro H; contradiction|]. split; [lia|].
        split; [intros _ H; discriminate|].
        intros m' _ H. injection H as <-. auto.
      * split; [split; [auto | discriminate]|]. split; [reflexivity|].
        split; [intro H; contradiction|]. split; [lia|].
        split; [auto|]. intros m' _ H. discriminate.
  - apply String.eqb_neq in Epc.
    split; [split; [intro H; contradiction | intros [H _]; contradiction]|].
    split; [intro H; contradiction|]. split; [reflexivity|].
    split; [intro H; contradiction|]. split; [intro H; contradiction|].
    intros ? H; contradiction.
Qed.

Lemma removeRow_keeps_a_row_witness :
  NoDup (map InvoiceRow.id [Sample.row_charge; Sample.row_payment]) /\
  [Sample.row_charge; Sample.row_payment] <> [] /\
  removeRow "r1" [Sample.row_charge; Sample.row_payment] <> [] /\
  (In "r1" (map InvoiceRow.id [Sample.row_charge; Sample.row_payment]) ->
   (1 < List.length [Sample.row_charge; Sample.row_payment])%nat ->
   List.length (removeRow "r1" [Sample.row_charge; Sample.row_payment]) =
     (List.length [Sample.row_charge; Sample.row_payment] - 1)%nat /\
   ~ In "r1" (map InvoiceRow.id (removeRow "r1" [Sample.row_charge; Sample.row_payment]))).
Proof.
  assert (Hnd : NoDup (map InvoiceRow.id [Sample.row_charge; Sample.row_payment])).
  { simpl. constructor; [intros [H|[]]; discriminate | constructor; [intros []|constructor]]. }
  split; [exact Hnd|]. split; [discriminate|].
  apply (removeRow_keeps_a_row "r1" _ Hnd). discriminate.
Defined.

Lemma handleSave_edits_in_place_witness :
  Invoice.id Sample.invX <> EmptyString /\ Invoice.creation_date Sample.invX <> EmptyString /\
  In Sample.invX (db_invoices Sample.db_one) /\
  exists x s',
    saveInvoice Fixtures.sv_ok
      (handleSave_invoice (Some Sample.invX) "A" [Sample.row_charge; Sample.row_payment])
      Sample.env_ok Sample.db_one = (Ok (Some x), s') /\
    Invoice.id x = Invoice.id Sample.invX /\
    Invoice.creation_date x = Invoice.creation_date Sample.invX /\
    Invoice.supplier_id x = "A" /\
    db_suppliers s' = db_suppliers Sample.db_one /\
    map Invoice.id (db_invoices s') = map Invoice.id (db_invoices Sample.db_one) /\
    In x (db_invoices s') /\
    (forall y, In y (db_invoices Sample.db_one) -> Invoice.id y <> Invoice.id Sample.invX ->
               In y (db_invoices s')).
Proof.
  assert (Hid : Invoice.id Sample.invX <> EmptyString) by (simpl; discriminate).
  assert (Hcd : Invoice.creation_date Sample.invX <> EmptyString) by (simpl; discriminate).
  assert (Hin : In Sample.invX (db_invoices Sample.db_one)) by (simpl; now left).
  split; [exact Hid|]. split; [exact Hcd|]. split; [exact Hin|].
  eexists; eexists. split; [reflexivity|].
  eapply (handleSave_edits_in_place Fixtures.sv_ok Sample.env_ok Sample.db_one _ Sample.invX "A"
           [Sample.row_charge; Sample.row_payment] _ Hid Hcd Hin). reflexivity.
Defined.

Lemma handleSave_new_invoice_witness :
  exists x s',
    saveInvoice Fixtures.sv_ok (handleSave_invoice None "A" [Sample.row_charge])
                Sample.env_ok Sample.db_one = (Ok (Some x), s') /\
    Invoice.id x = fresh_id Fixtures.sv_ok /\
    Invoice.creation_date x = now Sample.env_ok /\
    Invoice.supplier_id x = "A" /\
    In "A" (map Supplier.id (db_suppliers Sample.db_one)) /\
    (~ In (fresh_id Fixtures.sv_ok) (map Invoice.id (db_invoices Sample.db_one)) ->
     s' = mkDb (db_suppliers Sample.db_one) (db_invoices Sample.db_one ++ [x])).
Proof.
  eexists; eexists. split; [reflexivity|].
  eapply (handleSave_new_invoice Fixtures.sv_ok Sample.env_ok Sample.db_one _ "A"
           [Sample.row_charge]). reflexivity.
Defined.

Lemma saveSupplier_keeps_links_witness :
  fk_ok Sample.db_one /\
  exists r s',
    saveSupplier Fixtures.sv_ok Fixtures.supB_fields Sample.env_ok Sample.db_one = (Ok r, s') /\
    fk_ok s' /\
    incl (map Supplier.id (db_suppliers Sample.db_one)) (map Supplier.id (db_suppliers s')) /\
    db_invoices s' = db_invoices Sample.db_one /\
    (forall x, r = Some x -> In x (db_suppliers s')).
Proof.
  assert (Hfk : fk_ok Sample.db_one).
  { intros i [<-|[]]. simpl. now left. }
  split; [exact Hfk|].
  eexists; eexists. split; [reflexivity|].
  eapply (saveSupplier_keeps_links Fixtures.sv_ok Sample.env_ok Sample.db_one _
           Fixtures.supB_fields _ Hfk). reflexivity.
Defined.

Lemma getEnrichedInvoices_throws_witness :
  (exists inv v, In inv [Sample.invX; Invoice.mk "T" "A" "2024-03-02" (RowsNotArray (JBool true))] /\
                 find_supplier [Sample.supA] inv <> None /\
                 Invoice.rows inv = RowsNotArray v /\
                 (v = JBool true \/ exists z, v = JNumber z /\ z <> 0)) /\
  getEnrichedInvoices [Sample.supA]
    [Sample.invX; Invoice.mk "T" "A" "2024-03-02" (RowsNotArray (JBool true))] = None.
Proof.
  assert (Hx : exists inv v, In inv [Sample.invX; Invoice.mk "T" "A" "2024-03-02" (RowsNotArray (JBool true))] /\
                 find_supplier [Sample.supA] inv <> None /\
                 Invoice.rows inv = RowsNotArray v /\
                 (v = JBool true \/ exists z, v = JNumber z /\ z <> 0)).
  { exists (Invoice.mk "T" "A" "2024-03-02" (RowsNotArray (JBool true))), (JBool true).
    split; [right; left; reflexivity|]. split; [discriminate|]. split; [reflexivity|].
    left; reflexivity. }
  split; [exact Hx|].
  apply (getEnrichedInvoices_throws [Sample.supA]
           [Sample.invX; Invoice.mk "T" "A" "2024-03-02" (RowsNotArray (JBool true))] Hx).
Defined.

Lemma getEnrichedInvoices_keeps_linked_witness :
  exists l,
    getEnrichedInvoices [Sample.supA] [Sample.invX; Fixtures.inv_orphan] = Some l /\
    Forall2 (fun inv w =>
               find_supplier [Sample.supA] inv = Some (InvoiceWithSupplier.supplier w) /\
               InvoiceWithSupplier.id w = Invoice.id inv /\
               InvoiceWithSupplier.supplier_id w = Invoice.supplier_id inv /\
               InvoiceWithSupplier.creation_date w = Invoice.creation_date inv /\
               InvoiceWithSupplier.rows w = Invoice.rows inv /\
               InvoiceWithSupplier.balance w = calculateInvoiceBalance inv /\
               getInvoiceInitialAmount inv = Some (InvoiceWithSupplier.initialAmount w))
            (filter (fun inv => match find_supplier [Sample.supA] inv with
                                | Some _ => true | None => false end)
                    [Sample.invX; Fixtures.inv_orphan])
            l.
Proof.
  eexists. split; [reflexivity|].
  eapply (getEnrichedInvoices_keeps_linked [Sample.supA] [Sample.invX; Fixtures.inv_orphan]).
  reflexivity.
Defined.

Lemma sumPay_positive_witness :
  exists merch toPay,
    dashboardLists Fixtures.no_filters Fixtures.enr = Some (merch, toPay) /\
    Forall (fun i => js_gt0 (InvoiceWithSupplier.balance i) = true) toPay /\
    exists n, sumBalances toPay = JNum n /\ (0 < n <-> toPay <> []).
Proof.
  eexists; eexists. split; [reflexivity|].
  eapply (sumPay_positive Fixtures.no_filters Fixtures.enr). reflexivity.
Defined.

Lemma years_distinct_witness :
  exists ys,
    years Fixtures.enr = Some ys /\
    NoDup ys /\
    (forall y, In y ys <-> exists i, In i Fixtures.enr /\ invoice_year i = Some y).
Proof.
  eexists. split; [reflexivity|].
  eapply (years_distinct Fixtures.enr). reflexivity.
Defined.

Lemma confirmDeleteSupplier_clears_witness :
  App.supplierToDelete Fixtures.app0 = Some "A" /\ "A" <> EmptyString /\
  let '(r, (st', s')) := confirmDeleteSupplier Sample.env_ok (Fixtures.app0, Sample.db_one) in
  r = Ok tt /\ App.supplierToDelete st' = None /\ App.isLoading st' = false /\
  (App.selectedSupplierId Fixtures.app0 = Some "A" ->
     App.selectedSupplierId st' = None /\ App.activeTab st' = 0) /\
  (App.selectedSupplierId Fixtures.app0 <> Some "A" ->
     App.selectedSupplierId st' = App.selectedSupplierId Fixtures.app0 /\
     App.activeTab st' = App.activeTab Fixtures.app0) /\
  (App.session Fixtures.app0 = true -> fails Sample.env_ok CDeleteSupplier = false ->
   fails Sample.env_ok CSelectSuppliers = false -> fails Sample.env_ok CSelectInvoices = false ->
   fk_ok Sample.db_one ->
     ~ In "A" (map Supplier.id (App.suppliers st')) /\
     (forall i, In i (App.invoices st') -> Invoice.supplier_id i <> "A")).
Proof.
  split; [reflexivity|]. split; [discriminate|].
  exact (confirmDeleteSupplier_clears Sample.env_ok Fixtures.app0 Sample.db_one "A"
           eq_refl ltac:(discriminate)).
Defined.

Lemma confirmDeleteAllSuppliers_empties_witness :
  fails Sample.env_ok CDeleteAllInvoices = false /\
  fails Sample.env_ok CDeleteAllSuppliers = false /\
  fk_ok Sample.db_one /\ ~ In nil_uuid (map Supplier.id (db_suppliers Sample.db_one)) /\
  let '(r, (st', s')) := confirmDeleteAllSuppliers Sample.env_ok (Fixtures.app0, Sample.db_one) in
  r = Ok tt /\ s' = mkDb [] [] /\
  App.isDeleteAllModalOpen st' = false /\ App.selectedSupplierId st' = None /\
  App.activeTab st' = 0 /\ App.isLoading st' = false /\
  (App.session Fixtures.app0 = true -> App.suppliers st' = [] /\ App.invoices st' = []).
Proof.
  assert (Hfk : fk_ok Sample.db_one) by (intros i [<-|[]]; simpl; now left).
  assert (Hnil : ~ In nil_uuid (map Supplier.id (db_suppliers Sample.db_one)))
    by (simpl; intros [H|[]]; discriminate).
  split; [reflexivity|]. split; [reflexivity|]. split; [exact Hfk|]. split; [exact Hnil|].
  exact (confirmDeleteAllSuppliers_empties Sample.env_ok Fixtures.app0 Sample.db_one
           eq_refl eq_refl Hfk Hnil).
Defined.

Lemma onImportLoad_failure_stale_witness :
  onImportLoad Fixtures.parse_backup "backup" Fixtures.env_insert_fails
               (Fixtures.app0, Sample.db_one) =
    (Ok tt, (App.set_isLoading false
               (App.push_alert import_error_alert (App.set_isLoading true Fixtures.app0)),
             mkDb [] [])).
Proof.
  assert (Hfk : fk_ok Sample.db_one) by (intros i [<-|[]]; simpl; now left).
  assert (Hnil : ~ In nil_uuid (map Supplier.id (db_suppliers Sample.db_one)))
    by (simpl; intros [H|[]]; discriminate).
  apply (onImportLoad_failure_stale Fixtures.parse_backup "backup" Fixtures.env_insert_fails
           Fixtures.app0 Sample.db_one Fixtures.backup_doc
           [supplier_to_json Sample.supA] [invoice_to_json Sample.invX] "user-1");
    try reflexivity; try discriminate; assumption.
Defined.
